(** * Shipment tracking: route resolution, completed prefix and geocoding

    A shallow embedding of [src/components/ShipmentMap.tsx], [src/lib/geocode.ts]
    and the tracking page ([fetchCoordinates], [getCoords] and the map card of
    [TrackingPage]).

    Numbers.  The source computes on JavaScript numbers.  The functions below
    are written once, over the interface [JsNumber] of the operations the
    source uses, and read at two instances:
    - [Binary64.number]: IEEE 754 binary64 ([PrimFloat]), which is what the
      program runs on; it evaluates, so concrete runs are checked by
      computation, and general statements about the running program are
      proved from the IEEE specification of its operations.  [Math.sin] is
      implementation-approximated in ECMAScript and is a parameter of that
      instance.
    - [Real.number]: the real numbers, the exact arithmetic that the
      doubles approximate; a statement proved there says so, and is no
      statement about the doubles.

    Effects.  React state is threaded explicitly; an [await] that may reject
    and a [throw] are completions of a small state-and-exception monad whose
    state survives the exception, as it does in the source. *)

From Stdlib Require Import String List ZArith Lia Bool Arith.
From Stdlib Require Import Floats.
From Stdlib Require Import Reals Lra.
Import ListNotations.
Close Scope float_scope.

Set Implicit Arguments.

(** ** JavaScript numbers *)

Module Js.

(** The operations of [number] and [Math] that the source uses. *)
Class JsNumber (number : Type) := {
  ofNat : nat -> number;            (* a literal, a loop counter, [length] *)
  num_0_6 : number;                 (* the literal [0.6] *)
  num_0_02 : number;                (* the literal [0.02] *)
  add : number -> number -> number;
  sub : number -> number -> number;
  mul : number -> number -> number;
  div : number -> number -> number;
  lt : number -> number -> bool;
  Math_PI : number;
  Number_MAX_VALUE : number;
  Math_sin : number -> number;
  Math_sqrt : number -> number;
  Math_pow : number -> nat -> number;   (* [Math.pow(x, n)], [n] a literal *)
  Math_floor : number -> Z              (* [Math.floor(x)], read as an index *)
}.

(** [l.slice(0, e)]: a negative [e] counts from the end, and [e] is clamped
    to the length. *)
Definition slice0 {A} (l : list A) (e : Z) : list A :=
  let len := Z.of_nat (length l) in
  let k := if (e <? 0)%Z then Z.max (len + e) 0 else Z.min e len in
  firstn (Z.to_nat k) l.

(** [l.forEach((x, index) => ...)], the callback updating local variables
    of type [S]. *)
Fixpoint forEach_from {A S} (f : S -> A -> nat -> S) (l : list A)
         (index : nat) (s : S) : S :=
  match l with
  | [] => s
  | x :: rest => forEach_from f rest (Datatypes.S index) (f s x index)
  end.

Definition forEach {A S} (f : S -> A -> nat -> S) (l : list A) (s : S) : S :=
  forEach_from f l 0 s.

(** *** Completions and effects *)

Inductive Completion (A : Type) : Type :=
| Normal (a : A)
| Thrown (message : string).
Arguments Normal {A} a.
Arguments Thrown {A} message.

(** A computation on component state [St]; the state at a [throw] is kept. *)
Definition Effect (St A : Type) : Type := St -> Completion A * St.

Definition ret {St A} (a : A) : Effect St A := fun s => (Normal a, s).

Definition throw {St A} (message : string) : Effect St A :=
  fun s => (Thrown message, s).

Definition bind {St A B} (m : Effect St A) (k : A -> Effect St B) : Effect St B :=
  fun s =>
    match m s with
    | (Normal a, s') => k a s'
    | (Thrown e, s') => (Thrown e, s')
    end.

(** [await p]: the promise's settlement as a completion. *)
Definition await {St A} (p : Completion A) : Effect St A := fun s => (p, s).

(** [try { body } catch (err) { handler }] *)
Definition try_catch {St A} (body : Effect St A) (handler : string -> Effect St A)
  : Effect St A :=
  fun s =>
    match body s with
    | (Normal a, s') => (Normal a, s')
    | (Thrown e, s') => handler e s'
    end.

(** [try { body } finally { fin }], [fin] completing normally. *)
Definition finally {St A} (body : Effect St A) (fin : St -> St) : Effect St A :=
  fun s => let (c, s') := body s in (c, fin s').

Definition modify {St} (f : St -> St) : Effect St unit := fun s => (Normal tt, f s).

Definition when {St} (b : bool) (m : Effect St unit) : Effect St unit :=
  if b then m else ret tt.

End Js.

Import Js.

Declare Scope js_scope.
Delimit Scope js_scope with js.
Notation "x <- m ;; k" := (bind m (fun x => k))
  (at level 61, m at next level, right associativity) : js_scope.
Notation "m ;; k" := (bind m (fun _ => k))
  (at level 61, right associativity) : js_scope.
Infix "+" := add : js_scope.
Infix "-" := sub : js_scope.
Infix "*" := mul : js_scope.
Infix "/" := div : js_scope.
Infix "<?" := lt : js_scope.

(** *** IEEE 754 binary64 *)

Module Binary64.

(** [Math.floor] of a double, as the integer that [slice] reads; [NaN] and
    the infinities, which no array length produces, are read as [0]. *)
Definition floor (x : float) : Z :=
  match Prim2SF x with
  | S754_finite s m e =>
      let d := (2 ^ (- e))%Z in
      if (0 <=? e)%Z then
        (if s then - (Zpos m * 2 ^ e) else Zpos m * 2 ^ e)%Z
      else
        (if s then - ((Zpos m + d - 1) / d) else Zpos m / d)%Z
  | _ => 0%Z
  end.

(** [Math.pow(x, n)] for a literal [n], read as the rounded product
    ([x * x] for [n = 2]). *)
Fixpoint pow (x : float) (n : nat) : float :=
  match n with
  | O => 1%float
  | S k => PrimFloat.mul x (pow x k)
  end.

Definition of_nat (n : nat) : float :=
  PrimFloat.of_uint63 (Uint63.of_Z (Z.of_nat n)).

Definition number (sin : float -> float) : JsNumber float := {|
  ofNat := of_nat;
  num_0_6 := 0x1.3333333333333p-1%float;
  num_0_02 := 0x1.47ae147ae147bp-6%float;
  add := PrimFloat.add;
  sub := PrimFloat.sub;
  mul := PrimFloat.mul;
  div := PrimFloat.div;
  lt := PrimFloat.ltb;
  Math_PI := 0x1.921fb54442d18p+1%float;
  Number_MAX_VALUE := 0x1.fffffffffffffp+1023%float;
  Math_sin := sin;
  Math_sqrt := PrimFloat.sqrt;
  Math_pow := pow;
  Math_floor := floor
|}.

End Binary64.

(** *** Exact real arithmetic *)

Module Real.

Definition ltb (a b : R) : bool := if Rlt_dec a b then true else false.

(** [Number.MAX_VALUE] = (2^53 - 1) * 2^971. *)
Definition MAX_VALUE : R := IZR ((2 ^ 53 - 1) * 2 ^ 971).

#[global] Instance number : JsNumber R := {|
  ofNat := INR;
  num_0_6 := 0.6%R;
  num_0_02 := 0.02%R;
  add := Rplus;
  sub := Rminus;
  mul := Rmult;
  div := Rdiv;
  lt := ltb;
  Math_PI := PI;
  Number_MAX_VALUE := MAX_VALUE;
  Math_sin := Rtrigo_def.sin;
  Math_sqrt := R_sqrt.sqrt;
  Math_pow := Rpow_def.pow;
  Math_floor := Zfloor
|}.

End Real.

(** [type Coords = { lat: number; lon: number }], declared alike by the map
    component and by the tracking page. *)
Record Coords (number : Type) := { lat : number; lon : number }.

(** ** [src/components/ShipmentMap.tsx] *)

Module ShipmentMap.

(** A route point.  Every [LatLngExpression] that the component builds is a
    two-element array [[lat, lon]], so [Array.isArray(point)] holds at each
    point that [calculateCompletedRoute] visits. *)
Definition LatLng (number : Type) : Type := (number * number)%type.

(** The component's [useState] cells.  They live as long as the component
    is mounted: the effect runs [fetchRoadRoute] again at each change of
    [from], [to] or [current], on the cells as the previous run left them. *)
Record State (number : Type) := {
  routeData : list (LatLng number);
  completedRoute : list (LatLng number);
  isLoading : bool;
  error : string
}.

(** The routing provider's answer, as far as [fetchRoadRoute] reads it. *)
Record OsrmRoute (number : Type) := {
  geometry_coordinates : option (list (number * number))   (* [lon, lat] *)
}.

Record OsrmData (number : Type) := {
  code : string;
  routes : option (list (OsrmRoute number))
}.

Record Response (number : Type) := {
  ok : bool;
  json : Completion (OsrmData number)     (* [await response.json()] *)
}.

Section Component.
Context {number : Type} {JN : JsNumber number}.
Local Open Scope js_scope.

Definition initialState : State number :=
  {| routeData := []; completedRoute := []; isLoading := true; error := "" |}.

Definition setRouteData (r : list (LatLng number)) : Effect (State number) unit :=
  modify (fun s => {| routeData := r; completedRoute := completedRoute s;
                      isLoading := isLoading s; error := error s |}).

Definition setCompletedRoute (r : list (LatLng number)) : Effect (State number) unit :=
  modify (fun s => {| routeData := routeData s; completedRoute := r;
                      isLoading := isLoading s; error := error s |}).

Definition setIsLoading (b : bool) : State number -> State number :=
  fun s => {| routeData := routeData s; completedRoute := completedRoute s;
              isLoading := b; error := error s |}.

Definition setError (e : string) : Effect (State number) unit :=
  modify (fun s => {| routeData := routeData s; completedRoute := completedRoute s;
                      isLoading := isLoading s; error := e |}).

(** The props [{ from, to, current }]. *)
Variables (from to : Coords number) (current : option (Coords number)).

(** The distance computed in the [forEach] callback. *)
Definition distance (cur : Coords number) (point : LatLng number) : number :=
  let pointLat := fst point in
  let pointLon := snd point in
  Math_sqrt (Math_pow (lat cur - pointLat) 2 + Math_pow (lon cur - pointLon) 2).

(** One turn of the [forEach] callback on
    [(closestPointIndex, closestDistance)]. *)
Definition visit (cur : Coords number) (closest : nat * number)
           (point : LatLng number) (index : nat) : nat * number :=
  let distance := distance cur point in
  if distance <? snd closest then (index, distance) else closest.

Definition closestPointIndex (cur : Coords number) (fullRoute : list (LatLng number))
  : nat :=
  fst (forEach (visit cur) fullRoute (0%nat, Number_MAX_VALUE)).

Definition calculateCompletedRoute (fullRoute : list (LatLng number))
  : Effect (State number) unit :=
  match current with
  | None => ret tt
  | Some cur =>
      if (length fullRoute =? 0)%nat then ret tt
      else setCompletedRoute
             (slice0 fullRoute (Z.of_nat (closestPointIndex cur fullRoute) + 1))
  end.

Definition steps : nat := 20.

(** The body of the loop of [generateFallbackRoute] at counter [i]. *)
Definition fallbackPoint (i : nat) : LatLng number :=
  let t := ofNat i / ofNat steps in
  let lat_ := lat from * (ofNat 1 - t) + lat to * t in
  let lon_ := lon from * (ofNat 1 - t) + lon to * t in
  let latOffset := (Math_sin (Math_PI * t) * num_0_02) * (lon to - lon from) in
  let lonOffset := (Math_sin (Math_PI * t) * num_0_02) * (lat from - lat to) in
  (lat_ + latOffset, lon_ + lonOffset).

(** [for (let i = 0; i <= steps; i++) points.push(...)] *)
Definition generateFallbackRoute : list (LatLng number) :=
  map fallbackPoint (seq 0 (steps + 1)).

(** [Math.floor(route.length * 0.6)] *)
Definition completionPoint (route : list (LatLng number)) : Z :=
  Math_floor (ofNat (length route) * num_0_6).

(** [coord => [coord[1], coord[0]]] *)
Definition toLatLng (coord : number * number) : LatLng number :=
  (snd coord, fst coord).

(** [data.routes[0].geometry.coordinates.map(...)]; reading [coordinates] of
    a route without geometry throws. *)
Definition routeCoordinates (data : OsrmData number)
  : Effect (State number) (list (LatLng number)) :=
  match routes data with
  | Some (r :: _) =>
      match geometry_coordinates r with
      | Some cs => ret (map toLatLng cs)
      | None => throw "Cannot read properties of undefined"
      end
  | _ => throw "Cannot read properties of undefined"
  end.

Definition noRouteFound (data : OsrmData number) : bool :=
  negb (String.eqb (code data) "Ok")
  || match routes data with
     | None => true
     | Some rs => (length rs =? 0)%nat
     end.

(** The [try] block of [fetchRoadRoute]; [fetched] is the settlement of
    the [fetch] promise. *)
Definition fetchRoadRoute_try (fetched : Completion (Response number))
  : Effect (State number) unit :=
  modify (setIsLoading true) ;;
  response <- await fetched ;;
  when (negb (ok response)) (throw "Failed to fetch route data") ;;
  data <- await (json response) ;;
  when (noRouteFound data) (throw "No route found") ;;
  coordinates <- routeCoordinates data ;;
  setRouteData coordinates ;;
  match current with
  | Some _ => calculateCompletedRoute coordinates
  | None => setCompletedRoute (slice0 coordinates (completionPoint coordinates))
  end.

(** The [catch] block. *)
Definition fetchRoadRoute_catch (err : string) : Effect (State number) unit :=
  setError "Could not load road route data" ;;
  let fallbackRoute := generateFallbackRoute in
  setRouteData fallbackRoute ;;
  match current with
  | Some _ => setCompletedRoute (slice0 fallbackRoute (completionPoint fallbackRoute))
  | None => ret tt
  end.

Definition fetchRoadRoute (fetched : Completion (Response number))
  : Effect (State number) unit :=
  finally (try_catch (fetchRoadRoute_try fetched) fetchRoadRoute_catch)
          (setIsLoading false).

End Component.

End ShipmentMap.

(** ** Geocoding: [src/lib/geocode.ts] and [getCoords] of the tracking page *)

Module Geocode.

(** A candidate of the search endpoint: latitude and longitude as strings. *)
Record Candidate := { lat_text : string; lon_text : string }.

(** The parsed body: [null], a list of candidates (objects with the two
    string fields, as the endpoint answers), or a value without a positive
    [length] (an error object, say). *)
Inductive Json :=
| JNull
| JArray (candidates : list Candidate)
| JOther.

Record Response := { json : Completion Json }.   (* [await res.json()] *)

Section Lookup.
Context {number : Type}.
(** [parseFloat], a built-in. *)
Variable parseFloat : string -> number.
(** The settlement of [fetch] for the search of a place name. *)
Variable fetch : string -> Completion Response.
Context {St : Type}.
Local Open Scope js_scope.

Definition first_coords (c : Candidate) : Coords number :=
  {| lat := parseFloat (lat_text c); lon := parseFloat (lon_text c) |}.

(** [src/lib/geocode.ts] *)
Definition getCoordinatesFromAddress (address : string)
  : Effect St (Coords number) :=
  res <- await (fetch address) ;;
  data <- await (json res) ;;
  match data with
  | JArray (c :: _) => ret (first_coords c)      (* [data && data.length > 0] *)
  | _ => throw "Address not found"
  end.

(** [getCoords] of the tracking page; [data.length] of [null] throws
    inside the [try]. *)
Definition getCoords_try (place : string) : Effect St (option (Coords number)) :=
  res <- await (fetch place) ;;
  data <- await (json res) ;;
  match data with
  | JNull => throw "Cannot read properties of null"
  | JArray (c :: _) => ret (Some (first_coords c))
  | _ => ret None
  end.

Definition getCoords (place : string) : Effect St (option (Coords number)) :=
  try_catch (getCoords_try place) (fun _ => ret None).

End Lookup.

End Geocode.

(** ** The tracking page *)

Module TrackingPage.

(** The shipment record; the fields that are only displayed (weight,
    carrier, type, estimated delivery, timeline) are left out. *)
Record ShipmentData (number : Type) := {
  consignmentNumber : string;
  status : string;
  origin : string;
  destination : string;
  currentLocation : string;
  fromCoords : option (Coords number);
  toCoords : option (Coords number);
  currentCoords : option (Coords number)
}.

Record State (number : Type) := {
  trackingNumber : string;
  shipmentData : option (ShipmentData number);
  isLoading : bool;
  error : string;
  mapLoaded : bool
}.

Section Page.
Context {number : Type}.
Variable parseFloat : string -> number.
Variable fetch : string -> Completion Geocode.Response.
Local Open Scope js_scope.

Definition mockShipmentData : ShipmentData number := {|
  consignmentNumber := "SHP12345678";
  status := "In Transit";
  origin := "New York, NY";
  destination := "San Francisco, CA";
  currentLocation := "Denver, CO";
  fromCoords := None;
  toCoords := None;
  currentCoords := None
|}.

Definition setShipmentData (f : option (ShipmentData number) -> option (ShipmentData number))
  : Effect (State number) unit :=
  modify (fun s => {| trackingNumber := trackingNumber s;
                      shipmentData := f (shipmentData s);
                      isLoading := isLoading s; error := error s;
                      mapLoaded := mapLoaded s |}).

Definition setMapLoaded (b : bool) : Effect (State number) unit :=
  modify (fun s => {| trackingNumber := trackingNumber s;
                      shipmentData := shipmentData s;
                      isLoading := isLoading s; error := error s;
                      mapLoaded := b |}).

Definition setError (e : string) : Effect (State number) unit :=
  modify (fun s => {| trackingNumber := trackingNumber s;
                      shipmentData := shipmentData s;
                      isLoading := isLoading s; error := e;
                      mapLoaded := mapLoaded s |}).

Definition getCoords : string -> Effect (State number) (option (Coords number)) :=
  Geocode.getCoords parseFloat fetch.

(** The updater [prev => prev ? { ...prev, fromCoords, toCoords, currentCoords } : null] *)
Definition withCoords (origin_ destination_ current_ : option (Coords number))
           (prev : option (ShipmentData number)) : option (ShipmentData number) :=
  match prev with
  | None => None
  | Some d =>
      Some {| consignmentNumber := consignmentNumber d; status := status d;
              origin := origin d; destination := destination d;
              currentLocation := currentLocation d;
              fromCoords := origin_; toCoords := destination_;
              currentCoords := current_ |}
  end.

Definition fetchCoordinates_try : Effect (State number) unit :=
  origin_ <- getCoords (origin mockShipmentData) ;;
  destination_ <- getCoords (destination mockShipmentData) ;;
  current_ <- getCoords (currentLocation mockShipmentData) ;;
  setShipmentData (withCoords origin_ destination_ current_) ;;
  setMapLoaded true.

Definition fetchCoordinates : Effect (State number) unit :=
  try_catch fetchCoordinates_try
            (fun _ => setError "Could not load map coordinates").

(** Whether the render shows the map card:
    [shipmentData && (shipmentData.fromCoords && shipmentData.toCoords && <Card>)]. *)
Definition mapCardRendered (s : State number) : bool :=
  match shipmentData s with
  | None => false
  | Some d =>
      match fromCoords d, toCoords d with
      | Some _, Some _ => true
      | _, _ => false
      end
  end.

End Page.

End TrackingPage.

(** ** Vocabulary of the statements *)

Module Routing.
Import ShipmentMap.

Section Outcomes.
Context {number : Type}.

(** The ways in which a request to the routing provider yields no route:
    the request fails, the response is not OK or cannot be read, the
    provider's status is not ["Ok"], or it lists no route (or one without
    geometry). *)
Inductive Failure : Completion (Response number) -> Prop :=
| NetworkError message :
    Failure (Thrown message)
| NotOk body :
    Failure (Normal {| ok := false; json := body |})
| BodyUnreadable message :
    Failure (Normal {| ok := true; json := Thrown message |})
| StatusNotOk data :
    code data <> "Ok"%string ->
    Failure (Normal {| ok := true; json := Normal data |})
| MissingRoutes data :
    routes data = None ->
    Failure (Normal {| ok := true; json := Normal data |})
| EmptyRoutes data :
    routes data = Some [] ->
    Failure (Normal {| ok := true; json := Normal data |})
| NoGeometry data r rs :
    routes data = Some (r :: rs) -> geometry_coordinates r = None ->
    Failure (Normal {| ok := true; json := Normal data |}).

(** The provider answers with the geometry [cs] of a first route. *)
Inductive Provides : Completion (Response number) -> list (number * number) -> Prop :=
| Provided data r rs cs :
    code data = "Ok"%string ->
    routes data = Some (r :: rs) -> geometry_coordinates r = Some cs ->
    Provides (Normal {| ok := true; json := Normal data |}) cs.

(** [completed] is the first [k] points of [full], for some [0 <= k <= N]. *)
Definition Prefix (completed full : list (LatLng number)) : Prop :=
  exists k, (k <= length full)%nat /\ completed = firstn k full.

(** The completed-prefix rule in the spec's words (steps 3 and 4 of the
    route resolver): with a current coordinate, the route truncated at
    the index of the nearest point, inclusive; without one, the first
    [floor (length * 0.6)] points. *)
Definition completedPrefixRule {JN : JsNumber number}
           (current : option (Coords number)) (route : list (LatLng number))
  : list (LatLng number) :=
  match current with
  | Some cur => firstn (closestPointIndex cur route + 1) route
  | None => firstn (Z.to_nat (completionPoint route)) route
  end.

(** What the [catch] block leaves behind. *)
Definition afterFallback {JN : JsNumber number}
           (from to : Coords number) (current : option (Coords number))
           (st : State number) : State number :=
  let fallbackRoute := generateFallbackRoute from to in
  {| routeData := fallbackRoute;
     completedRoute :=
       match current with
       | Some _ => slice0 fallbackRoute (completionPoint fallbackRoute)
       | None => completedRoute st
       end;
     isLoading := false;
     error := "Could not load road route data" |}.

(** What the [try] block leaves behind when the provider gives [cs]. *)
Definition afterFetched {JN : JsNumber number} (current : option (Coords number))
           (cs : list (number * number)) (st : State number) : State number :=
  let coordinates := map toLatLng cs in
  {| routeData := coordinates;
     completedRoute :=
       match current with
       | Some cur =>
           if (length coordinates =? 0)%nat then completedRoute st
           else slice0 coordinates (Z.of_nat (closestPointIndex cur coordinates) + 1)
       | None => slice0 coordinates (completionPoint coordinates)
       end;
     isLoading := false;
     error := error st |}.

End Outcomes.

End Routing.

(** The lookup that [getCoords] performs, read off the settlement of the
    search request: the first candidate, if the body is a non-empty list. *)
Definition firstResult (fetched : Completion Geocode.Response) : option Geocode.Candidate :=
  match fetched with
  | Normal {| Geocode.json := Normal (Geocode.JArray (c :: _)) |} => Some c
  | _ => None
  end.

(** The coordinates that [getCoords] obtains for a place. *)
Definition geocoded {number : Type} (parseFloat : string -> number)
           (fetch : string -> Completion Geocode.Response) (place : string)
  : option (Coords number) :=
  option_map (Geocode.first_coords parseFloat) (firstResult (fetch place)).

(** ** Concrete inputs *)

Module Inputs.
Import ShipmentMap.
Local Open Scope R_scope.

(** Two points on the equator, ten degrees apart. *)
Definition west : Coords R := {| lat := 0; lon := 0 |}.
Definition east : Coords R := {| lat := 0; lon := 10 |}.

(** A provider answer whose route starts at the road nearest to the origin
    (longitude first). *)
Definition snapped : Completion (Response R) :=
  Normal {| ok := true;
            json := Normal {| code := "Ok";
                              routes := Some [ {| geometry_coordinates :=
                                                    Some [(1, 0); (5, 1); (9, 0)] |} ] |} |}.

Definition on_the_road : Coords R := {| lat := 1; lon := 5 |}.

(** A route that passes twice through the same point. *)
Definition loop : list (LatLng R) := [(0, 0); (1, 1); (2, 2); (1, 1)].
Definition crossing : Coords R := {| lat := 1; lon := 1 |}.

(** New York, as a double. *)
Definition new_york : Coords float :=
  {| lat := 0x1.45b3d07c84b5ep+5%float; lon := (-0x1.280624dd2f1aap+6)%float |}.

(** San Francisco, as a double. *)
Definition san_francisco : Coords float :=
  {| lat := 0x1.2e32fec56d5dp+5%float; lon := (-0x1.e9ad77318fc5p+6)%float |}.

(** The provider's answer when it finds no route. *)
Definition no_route : Completion (Response R) :=
  Normal {| ok := true;
            json := Normal {| code := "NoRoute"; routes := None |} |}.

(** A route on doubles (longitude first) that passes twice through
    [(40.75, -74)], and that point as current coordinate. *)
Definition round_trip : Completion (Response float) :=
  Normal {| ok := true;
            json := Normal {| code := "Ok";
                              routes := Some [ {| geometry_coordinates :=
                                Some [((-74.25)%float, 40.5%float);
                                      ((-74)%float, 40.75%float);
                                      ((-73.5)%float, 41%float);
                                      ((-74)%float, 40.75%float);
                                      ((-73)%float, 41.5%float)] |} ] |} |}.

Definition turning_point : Coords float :=
  {| lat := 40.75%float; lon := (-74)%float |}.

(** A search endpoint that knows no place. *)
Definition nowhere (place : string) : Completion Geocode.Response :=
  Normal {| Geocode.json := Normal (Geocode.JArray []) |}.

(** A search endpoint that answers every search with two candidates. *)
Definition gazetteer (place : string) : Completion Geocode.Response :=
  Normal {| Geocode.json :=
              Normal (Geocode.JArray
                        [ {| Geocode.lat_text := "40.5"; Geocode.lon_text := "-74.25" |};
                          {| Geocode.lat_text := "41"; Geocode.lon_text := "-73" |} ]) |}.

(** [parseFloat] on the strings of the examples. *)
Definition parseFloat (s : string) : R :=
  if String.eqb s "40.5" then 40.5
  else if String.eqb s "-74.25" then -74.25
  else if String.eqb s "41" then 41
  else if String.eqb s "-73" then -73
  else 0.

End Inputs.

(** ** What [ShipmentMap] draws *)

Module MapView.
Import ShipmentMap.

(** The parts of the rendered map that depend on the component's state. *)
Record View (number : Type) := {
  loadingIndicator : bool;                          (* "Loading route data..." *)
  errorNote : option string;
  currentMarker : option (LatLng number);
  fullPath : option (list (LatLng number));         (* dashed gray polyline *)
  completedPath : option (list (LatLng number));    (* solid blue polyline *)
  fitBounds : list (LatLng number)                  (* [map.fitBounds(...)] *)
}.

Section View.
Context {number : Type}.
Variables (from to : Coords number) (current : option (Coords number)).

(** The effect of [AnimateMap]: the points handed to [map.fitBounds]. *)
Definition fitBoundsPoints (routeData : list (LatLng number)) : list (LatLng number) :=
  if (0 <? length routeData)%nat then
    map (fun point => (fst point, snd point)) routeData
  else
    [(lat from, lon from); (lat to, lon to)]
      ++ match current with
         | Some c => [(lat c, lon c)]
         | None => []
         end.

(** The JSX of [ShipmentMap]: [isLoading && ...], [error && !isLoading && ...],
    [current && <Marker>], [routeData.length > 0 && <Polyline>],
    [completedRoute.length > 0 && <Polyline>], and [AnimateMap]. *)
Definition render (s : State number) : View number :=
  {| loadingIndicator := isLoading s;
     errorNote :=
       if negb (String.eqb (error s) "") && negb (isLoading s)
       then Some (error s) else None;
     currentMarker := option_map (fun c => (lat c, lon c)) current;
     fullPath :=
       if (0 <? length (routeData s))%nat then Some (routeData s) else None;
     completedPath :=
       if (0 <? length (completedRoute s))%nat then Some (completedRoute s) else None;
     fitBounds := fitBoundsPoints (routeData s) |}.

End View.

End MapView.

(** ** [handleSearch] of the tracking page *)

Module Search.
Import TrackingPage.

Section Search.
Context {number : Type}.
Variable parseFloat : string -> number.
Variable fetch : string -> Completion Geocode.Response.
(** [String.prototype.trim], a built-in. *)
Variable trim : string -> string.
Local Open Scope js_scope.

Definition setIsLoading (b : bool) : Effect (State number) unit :=
  modify (fun s => {| trackingNumber := trackingNumber s;
                      shipmentData := shipmentData s;
                      isLoading := b; error := error s;
                      mapLoaded := mapLoaded s |}).

(** [onChange={(e) => setTrackingNumber(e.target.value)}] *)
Definition setTrackingNumber (value : string) : Effect (State number) unit :=
  modify (fun s => {| trackingNumber := value;
                      shipmentData := shipmentData s;
                      isLoading := isLoading s; error := error s;
                      mapLoaded := mapLoaded s |}).

(** The synchronous part of [handleSearch]; it returns the tracking number
    that the timer callback closes over. *)
Definition handleSearch : Effect (State number) string :=
  fun s => (setIsLoading true ;; setError "" ;; ret (trackingNumber s)) s.

(** The [setTimeout] callback.  [fetchCoordinates()] is started and not
    awaited: its state updates come after [setIsLoading(false)]; the result
    tells whether it was started. *)
Definition handleSearch_timer (trackingNumber_ : string) : Effect (State number) bool :=
  if String.eqb (trim trackingNumber_) "" then
    setError "Please enter a valid tracking number" ;;
    setShipmentData (fun _ => None) ;;
    setIsLoading false ;;
    ret false
  else
    setShipmentData (fun _ => Some mockShipmentData) ;;
    setIsLoading false ;;
    ret true.

(** One search, from the click to the last state update, nothing else
    happening in between. *)
Definition search : Effect (State number) unit :=
  trackingNumber_ <- handleSearch ;;
  started <- handleSearch_timer trackingNumber_ ;;
  when started (fetchCoordinates parseFloat fetch).

(** The page as rendered: the "Track" button is disabled while loading, the
    alert shows a non-empty error, the results show a non-null shipment. *)
Definition buttonDisabled (s : State number) : bool := isLoading s.

Definition errorAlert (s : State number) : option string :=
  if String.eqb (error s) "" then None else Some (error s).

Definition shownConsignment (s : State number) : option string :=
  option_map (fun d => consignmentNumber d) (shipmentData s).

(** The props that the map card hands to [ShipmentMap], when it is rendered. *)
Definition mapProps (s : State number)
  : option (Coords number * Coords number * option (Coords number)) :=
  match shipmentData s with
  | None => None
  | Some d =>
      match fromCoords d, toCoords d with
      | Some f, Some t => Some (f, t, currentCoords d)
      | _, _ => None
      end
  end.

End Search.

End Search.

(** A double that is NaN. *)
Definition isNaN (x : float) : Prop := Prim2SF x = S754_nan.

(** ** More concrete inputs *)

Module MoreInputs.
Import ShipmentMap.

(** A current coordinate whose latitude did not parse. *)
Definition unparsed : Coords float :=
  {| lat := PrimFloat.nan; lon := (-74)%float |}.

(** A provider answer with an empty geometry. *)
Definition no_points : Completion (Response R) :=
  Normal {| ok := true;
            json := Normal {| code := "Ok";
                              routes := Some [ {| geometry_coordinates := Some [] |} ] |} |}.

(** [trim] on the strings of the examples. *)
Definition trim (s : string) : string :=
  if String.eqb s "   " then "" else s.

Definition typed (number_ : string) : TrackingPage.State R :=
  {| TrackingPage.trackingNumber := number_;
     TrackingPage.shipmentData := None;
     TrackingPage.isLoading := false;
     TrackingPage.error := "";
     TrackingPage.mapLoaded := false |}.

End MoreInputs.

(** ** Classes of doubles *)

(** [Number.isFinite]: neither NaN nor an infinity. *)
Definition isFinite (x : float) : bool :=
  match Prim2SF x with
  | S754_zero _ | S754_finite _ _ _ => true
  | _ => false
  end.

Definition isNegativeZero (x : float) : bool :=
  match Prim2SF x with
  | S754_zero true => true
  | _ => false
  end.

(** [+0] or [-0]. *)
Definition isZero (x : float) : bool :=
  match Prim2SF x with
  | S754_zero _ => true
  | _ => false
  end.

(** A finite double other than [-0]. *)
Definition regular (x : float) : Prop :=
  isFinite x = true /\ isNegativeZero x = false.

(** NaN, a zero, a positive finite double or [+Infinity]: what [Math.sqrt]
    returns. *)
Definition notNegative (x : spec_float) : Prop :=
  match x with
  | S754_finite true _ _ | S754_infinity true => False
  | _ => True
  end.

(** The order of [<] on the doubles that are not negative; NaN is below and
    above nothing. *)
Definition below (x y : spec_float) : Prop :=
  match x, y with
  | S754_zero _, S754_finite false _ _ => True
  | S754_zero _, S754_infinity false => True
  | S754_finite false _ _, S754_infinity false => True
  | S754_finite false m1 e1, S754_finite false m2 e2 =>
      (e1 < e2)%Z \/ (e1 = e2 /\ (m1 < m2)%positive)
  | _, _ => False
  end.

(** ** Concrete inputs on doubles *)

Module Inputs64.
Import ShipmentMap.

(** [Math.sin] at the arguments that [generateFallbackRoute] passes to it,
    [Math.PI * (i / 20)], as the C library computes it; 0 elsewhere. *)
Definition sine_table : list (float * float) :=
  [
    (0%float, 0%float);
    (0x1.41b2f769cf0e0p-3%float, 0x1.4060b67a85375p-3%float);
    (0x1.41b2f769cf0e0p-2%float, 0x1.3c6ef372fe94fp-2%float);
    (0x1.e28c731eb6950p-2%float, 0x1.d0e2e2b44de00p-2%float);
    (0x1.41b2f769cf0e0p-1%float, 0x1.2cf2304755a5ep-1%float);
    (0x1.921fb54442d18p-1%float, 0x1.6a09e667f3bccp-1%float);
    (0x1.e28c731eb6950p-1%float, 0x1.9e3779b97f4a8p-1%float);
    (0x1.197c987c952c4p+0%float, 0x1.c83201d3d2c6cp-1%float);
    (0x1.41b2f769cf0e0p+0%float, 0x1.e6f0e134454ffp-1%float);
    (0x1.69e9565708efcp+0%float, 0x1.f9b24942fe45cp-1%float);
    (0x1.921fb54442d18p+0%float, 0x1.0000000000000p+0%float);
    (0x1.ba5614317cb35p+0%float, 0x1.f9b24942fe45bp-1%float);
    (0x1.e28c731eb6950p+0%float, 0x1.e6f0e13445500p-1%float);
    (0x1.05616905f83b6p+1%float, 0x1.c83201d3d2c6dp-1%float);
    (0x1.197c987c952c4p+1%float, 0x1.9e3779b97f4a8p-1%float);
    (0x1.2d97c7f3321d2p+1%float, 0x1.6a09e667f3bcdp-1%float);
    (0x1.41b2f769cf0e0p+1%float, 0x1.2cf2304755a5fp-1%float);
    (0x1.55ce26e06bfeep+1%float, 0x1.d0e2e2b44de02p-2%float);
    (0x1.69e9565708efcp+1%float, 0x1.3c6ef372fe951p-2%float);
    (0x1.7e0485cda5e0ap+1%float, 0x1.4060b67a85379p-3%float);
    (0x1.921fb54442d18p+1%float, 0x1.1a62633145c07p-53%float)
  ]%list.

Definition libm_sin (x : float) : float :=
  match find (fun entry => PrimFloat.eqb (fst entry) x) sine_table with
  | Some entry => snd entry
  | None => 0%float
  end.

(** Two points on the equator, ten degrees apart. *)
Definition west : Coords float := {| lat := 0%float; lon := 0%float |}.
Definition east : Coords float := {| lat := 0%float; lon := 10%float |}.

(** The point of the equator on the antimeridian. *)
Definition antimeridian : Coords float := {| lat := 0%float; lon := 180%float |}.

(** A route whose first point is 1e-170 degrees north of its second point,
    the origin. *)
Definition near_origin : list (LatLng float) :=
  [(0x1.3529ba7d19eafp-565, 0); (0, 0); (1, 1)]%float.

(** A route that passes twice through [(40.75, -74)]. *)
Definition round_trip : list (LatLng float) :=
  [(40.5, -74.25); (40.75, -74); (41, -73.5); (40.75, -74); (41.5, -73)]%float.

(** A current coordinate off the route. *)
Definition off_route : Coords float := {| lat := 41%float; lon := (-74)%float |}.

End Inputs64.

(** * Properties *)

Import ShipmentMap Routing.

(** ** Facts that hold for every model of [number] *)

Section AnyNumber.
Context {number : Type} {JN : JsNumber number}.

Lemma slice0_firstn {A} (l : list A) (e : Z) :
  (0 <= e)%Z -> slice0 l e = firstn (Z.to_nat e) l.
Proof.
  intros He. unfold slice0.
  destruct (Z.ltb_spec e 0) as [Hneg | _]; [lia |].
  destruct (Z.le_gt_cases e (Z.of_nat (length l))) as [Hle | Hgt].
  - now rewrite Z.min_l.
  - rewrite Z.min_r by lia. rewrite Nat2Z.id.
    rewrite firstn_all. symmetry. apply firstn_all2. lia.
Qed.

Lemma slice0_is_firstn {A} (l : list A) (e : Z) :
  exists k, (k <= length l)%nat /\ slice0 l e = firstn k l.
Proof.
  unfold slice0.
  set (k := if (e <? 0)%Z then _ else _).
  exists (Z.to_nat k). split; [| reflexivity].
  subst k. destruct (Z.ltb_spec e 0); lia.
Qed.

Lemma slice0_length {A} (l : list A) (e : Z) :
  (0 <= e <= Z.of_nat (length l))%Z -> length (slice0 l e) = Z.to_nat e.
Proof.
  intros He. rewrite slice0_firstn by lia. rewrite length_firstn. lia.
Qed.

Lemma generateFallbackRoute_length (from to : Coords number) :
  length (generateFallbackRoute from to) = 21%nat.
Proof. unfold generateFallbackRoute. now rewrite length_map, length_seq. Qed.

Lemma generateFallbackRoute_nth (from to : Coords number) (i : nat) :
  (i <= steps)%nat ->
  nth_error (generateFallbackRoute from to) i = Some (fallbackPoint from to i).
Proof.
  intros Hi. unfold generateFallbackRoute.
  rewrite nth_error_map, nth_error_seq.
  destruct (Nat.ltb_spec i (steps + 1)) as [_ | Hge]; [reflexivity | lia].
Qed.

Lemma generateFallbackRoute_points (from to : Coords number) (p : LatLng number) :
  In p (generateFallbackRoute from to) ->
  exists i, (i <= steps)%nat /\ p = fallbackPoint from to i.
Proof.
  unfold generateFallbackRoute. rewrite in_map_iff.
  intros (i & <- & Hi). apply in_seq in Hi. exists i. split; [lia | reflexivity].
Qed.

Lemma noRouteFound_false (data : OsrmData number) r rs :
  code data = "Ok"%string -> routes data = Some (r :: rs) ->
  noRouteFound data = false.
Proof.
  intros Hc Hr. unfold noRouteFound. now rewrite Hc, Hr.
Qed.

Lemma noRouteFound_code (data : OsrmData number) :
  code data <> "Ok"%string -> noRouteFound data = true.
Proof.
  intros Hc. unfold noRouteFound.
  destruct (String.eqb_spec (code data) "Ok"); [contradiction | reflexivity].
Qed.

Ltac run_effect :=
  cbv [fetchRoadRoute fetchRoadRoute_try fetchRoadRoute_catch finally try_catch
       bind await when modify ret throw setRouteData setCompletedRoute setError
       setIsLoading routeCoordinates calculateCompletedRoute negb
       ok json routeData completedRoute isLoading error];
  cbn beta iota.

Lemma fetchRoadRoute_failure from to current fetched st :
  Failure fetched ->
  fetchRoadRoute from to current fetched st
  = (Normal tt, afterFallback from to current st).
Proof.
  intros F. unfold afterFallback.
  destruct F as [m | body | m | data Hc | data Hr | data Hr | data r rs Hr Hg].
  - run_effect. now destruct current.
  - run_effect. now destruct current.
  - run_effect. now destruct current.
  - run_effect. rewrite (noRouteFound_code _ Hc). cbn beta iota. now destruct current.
  - run_effect. unfold noRouteFound. rewrite Hr, orb_true_r.
    cbn beta iota. now destruct current.
  - run_effect. unfold noRouteFound. rewrite Hr. cbn [length Nat.eqb].
    rewrite orb_true_r. cbn beta iota. now destruct current.
  - run_effect. destruct (noRouteFound data); cbn beta iota.
    + now destruct current.
    + rewrite Hr, Hg. cbn beta iota. now destruct current.
Qed.

Lemma fetchRoadRoute_fetched from to current fetched cs st :
  Provides fetched cs ->
  fetchRoadRoute from to current fetched st
  = (Normal tt, afterFetched current cs st).
Proof.
  intros P. unfold afterFetched.
  destruct P as [data r rs cs Hc Hr Hg].
  run_effect. erewrite noRouteFound_false by eassumption. cbn beta iota.
  rewrite Hr, Hg. cbn beta iota.
  destruct current as [cur |]; cbn beta iota; [| reflexivity].
  now destruct (length (map toLatLng cs) =? 0)%nat.
Qed.

(** Every settlement of the request is a failure or provides a route. *)
Lemma Failure_or_Provides (fetched : Completion (Response number)) :
  Failure fetched \/ exists cs, Provides fetched cs.
Proof.
  destruct fetched as [[o [data | m]] | m].
  - destruct o.
    + destruct (String.eqb_spec (code data) "Ok") as [Hc | Hc].
      * destruct (routes data) as [[| r rs] |] eqn:Hr.
        -- left. now apply EmptyRoutes.
        -- destruct (geometry_coordinates r) as [cs |] eqn:Hg.
           ++ right. exists cs. now apply Provided with r rs.
           ++ left. now apply NoGeometry with r rs.
        -- left. now apply MissingRoutes.
      * left. now apply StatusNotOk.
    + left. apply NotOk.
  - destruct o; left; [apply BodyUnreadable | apply NotOk].
  - left. apply NetworkError.
Qed.

Lemma slice0_Prefix (l : list (LatLng number)) (e : Z) : Prefix (slice0 l e) l.
Proof. apply slice0_is_firstn. Qed.

Lemma nil_Prefix (l : list (LatLng number)) : Prefix [] l.
Proof. exists 0%nat. split; [lia | reflexivity]. Qed.

(** The first resolution after the component is mounted, when no completed
    route is held yet, leaves a prefix of the full route. *)
Lemma first_resolution_Prefix from to current fetched st :
  completedRoute st = [] ->
  let st' := snd (fetchRoadRoute from to current fetched st) in
  Prefix (completedRoute st') (routeData st').
Proof.
  intros Hst. cbn zeta.
  destruct (Failure_or_Provides fetched) as [F | [cs P]].
  - rewrite (fetchRoadRoute_failure from to current st F).
    cbn [snd afterFallback completedRoute routeData].
    destruct current; [apply slice0_Prefix | rewrite Hst; apply nil_Prefix].
  - rewrite (fetchRoadRoute_fetched from to current st P).
    cbn [snd afterFetched completedRoute routeData].
    destruct current; [| apply slice0_Prefix].
    destruct (length (map toLatLng cs) =? 0)%nat;
      [rewrite Hst; apply nil_Prefix | apply slice0_Prefix].
Qed.

Lemma fetchRoadRoute_completes from to current fetched st :
  fst (fetchRoadRoute from to current fetched st) = Normal tt.
Proof.
  destruct (Failure_or_Provides fetched) as [F | [cs P]].
  - now rewrite (fetchRoadRoute_failure from to current st F).
  - now rewrite (fetchRoadRoute_fetched from to current st P).
Qed.

End AnyNumber.

(** ** Facts of exact arithmetic *)

Section RealNumber.
Local Open Scope R_scope.

Lemma Real_ltb_spec (a b : R) : reflect (a < b) (Real.ltb a b).
Proof. unfold Real.ltb. destruct (Rlt_dec a b); now constructor. Qed.

Lemma Real_MAX_VALUE_pos : 0 < Real.MAX_VALUE.
Proof. unfold Real.MAX_VALUE. apply IZR_lt. reflexivity. Qed.

Lemma distance_real (cur : Coords R) (p : LatLng R) :
  distance cur p = sqrt ((lat cur - fst p) ^ 2 + (lon cur - snd p) ^ 2).
Proof. reflexivity. Qed.

Lemma distance_nonneg (cur : Coords R) (p : LatLng R) : 0 <= distance cur p.
Proof. rewrite distance_real. apply sqrt_pos. Qed.

Lemma distance_self (cur : Coords R) : distance cur (lat cur, lon cur) = 0.
Proof.
  rewrite distance_real. cbn [fst snd].
  replace ((lat cur - lat cur) ^ 2 + (lon cur - lon cur) ^ 2) with 0 by ring.
  apply sqrt_0.
Qed.

Lemma distance_zero (cur : Coords R) (p : LatLng R) :
  distance cur p = 0 -> p = (lat cur, lon cur).
Proof.
  rewrite distance_real. destruct p as [a b]; cbn [fst snd pow].
  assert (Hu : exists u, u = lat cur - a) by eauto.
  assert (Hv : exists v, v = lon cur - b) by eauto.
  destruct Hu as [u Hu], Hv as [v Hv]. rewrite <- Hu, <- Hv.
  intros H.
  apply sqrt_eq_0 in H; [| nra].
  assert (u = 0) by nra.
  assert (v = 0) by nra.
  f_equal; lra.
Qed.

(** [Math.floor(n * 0.6)] is the integer quotient of [3 n] by [5]. *)
Lemma floor_six_tenths (n : nat) :
  Zfloor (INR n * 0.6) = Z.of_nat (3 * n / 5).
Proof.
  apply Zfloor_eq.
  pose proof (Nat.div_mod_eq (3 * n) 5) as Hdiv.
  pose proof (Nat.mod_upper_bound (3 * n) 5 ltac:(discriminate)) as Hmod.
  set (q := (3 * n / 5)%nat) in *. set (r := ((3 * n) mod 5)%nat) in *.
  rewrite <- INR_IZR_INZ.
  assert (E : 3 * INR n = 5 * INR q + INR r).
  { replace 3 with (INR 3) by (simpl; ring).
    replace 5 with (INR 5) by (simpl; ring).
    rewrite <- !mult_INR, <- plus_INR. now f_equal. }
  assert (0 <= INR r) by apply pos_INR.
  assert (INR r <= 4).
  { replace 4 with (INR 4) by (simpl; ring). apply le_INR. lia. }
  lra.
Qed.

Lemma completionPoint_real (route : list (LatLng R)) :
  completionPoint route = Z.of_nat (3 * length route / 5).
Proof. apply floor_six_tenths. Qed.

Lemma completionPoint_bounds (route : list (LatLng R)) :
  (0 <= completionPoint route <= Z.of_nat (length route))%Z.
Proof.
  rewrite completionPoint_real. split; [lia |].
  apply Nat2Z.inj_le. apply Nat.Div0.div_le_upper_bound. lia.
Qed.

Lemma visit_real (cur : Coords R) (closest : nat * R) (p : LatLng R) (index : nat) :
  visit cur closest p index
  = if Real.ltb (distance cur p) (snd closest) then (index, distance cur p)
    else closest.
Proof. reflexivity. Qed.

(** The scan of [calculateCompletedRoute]: either no point is nearer than
    the initial [closestDistance], or the result is the first index, in
    scan order, at which the least distance is reached. *)
Lemma forEach_visit (cur : Coords R) (l : list (LatLng R)) :
  forall (index : nat) (acc : nat * R),
    let r := forEach_from (visit cur) l index acc in
    (r = acc /\ forall p, In p l -> snd acc <= distance cur p)
    \/ (exists j p,
           nth_error l j = Some p /\
           r = ((index + j)%nat, distance cur p) /\
           distance cur p < snd acc /\
           (forall q, In q l -> distance cur p <= distance cur q) /\
           (forall i q, (i < j)%nat -> nth_error l i = Some q ->
                        distance cur p < distance cur q)).
Proof.
  induction l as [| x rest IH]; intros index acc; cbn zeta.
  - left. split; [reflexivity | intros p []].
  - cbn [forEach_from]. rewrite !visit_real.
    destruct (Real_ltb_spec (distance cur x) (snd acc)) as [Hlt | Hge].
    + destruct (IH (S index) (index, distance cur x))
        as [[Hr Hall] | (j & p & Hn & Hr & Hd & Hmin & Hfirst)];
        cbn [snd] in *.
      * right. exists 0%nat, x. rewrite Hr, Nat.add_0_r.
        repeat split; trivial.
        -- intros q [<- | Hq]; [lra | now apply Hall].
        -- intros i q Hi. lia.
      * right. exists (S j), p. rewrite Hr.
        replace (index + S j)%nat with (S index + j)%nat by lia.
        repeat split; trivial; try lra.
        -- intros q [<- | Hq]; [lra | now apply Hmin].
        -- intros [| i] q Hi Hq; cbn in Hq.
           ++ injection Hq as <-. exact Hd.
           ++ apply (Hfirst i); [lia | exact Hq].
    + apply Rnot_lt_le in Hge.
      destruct (IH (S index) acc)
        as [[Hr Hall] | (j & p & Hn & Hr & Hd & Hmin & Hfirst)].
      * left. split; [exact Hr |].
        intros q [<- | Hq]; [exact Hge | now apply Hall].
      * right. exists (S j), p. rewrite Hr.
        replace (index + S j)%nat with (S index + j)%nat by lia.
        repeat split; trivial.
        -- intros q [<- | Hq]; [lra | now apply Hmin].
        -- intros [| i] q Hi Hq; cbn in Hq.
           ++ injection Hq as <-. lra.
           ++ apply (Hfirst i); [lia | exact Hq].
Qed.

(** With the current coordinate on the route, the scan stops at its first
    occurrence. *)
Lemma closestPointIndex_on_route (cur : Coords R) (route : list (LatLng R)) (k : nat) :
  nth_error route k = Some (lat cur, lon cur) ->
  let i := closestPointIndex cur route in
  (i <= k)%nat /\
  nth_error route i = Some (lat cur, lon cur) /\
  (forall j, (j < i)%nat -> nth_error route j <> Some (lat cur, lon cur)) /\
  (forall q, In q route -> distance cur (lat cur, lon cur) <= distance cur q).
Proof.
  intros Hk. cbn zeta. unfold closestPointIndex, forEach.
  assert (Hin : In (lat cur, lon cur) route) by (eapply nth_error_In; eauto).
  destruct (forEach_visit cur route 0 (0%nat, Number_MAX_VALUE))
    as [[_ Hall] | (j & p & Hn & Hr & Hd & Hmin & Hfirst)]; cbn [snd] in *.
  - specialize (Hall _ Hin). rewrite distance_self in Hall.
    pose proof Real_MAX_VALUE_pos. cbn [Number_MAX_VALUE Real.number] in Hall. lra.
  - rewrite Hr. cbn [fst Nat.add].
    assert (Hp0 : distance cur p = 0).
    { pose proof (Hmin _ Hin) as H. rewrite distance_self in H.
      pose proof (distance_nonneg cur p). lra. }
    apply distance_zero in Hp0. subst p.
    repeat split.
    + destruct (Nat.le_gt_cases j k) as [Hle | Hgt]; [exact Hle |].
      specialize (Hfirst k _ Hgt Hk). lra.
    + exact Hn.
    + intros i Hi Hq. specialize (Hfirst i _ Hi Hq). lra.
    + intros q Hq. rewrite distance_self. apply distance_nonneg.
Qed.

End RealNumber.

(** ** The synthesized route in exact arithmetic *)

Section RealFallback.
Local Open Scope R_scope.
Variables from to : Coords R.

Lemma fallbackPoint_real (i : nat) :
  fallbackPoint from to i
  = (let t := INR i / INR steps in
     (lat from * (1 - t) + lat to * t + sin (PI * t) * 0.02 * (lon to - lon from),
      lon from * (1 - t) + lon to * t + sin (PI * t) * 0.02 * (lat from - lat to))).
Proof. reflexivity. Qed.

Lemma fallbackPoint_first : fallbackPoint from to 0 = (lat from, lon from).
Proof.
  rewrite fallbackPoint_real. cbn zeta.
  replace (INR 0 / INR steps) with 0 by (simpl; lra).
  replace (PI * 0) with 0 by ring. rewrite sin_0. f_equal; ring.
Qed.

Lemma fallbackPoint_last : fallbackPoint from to steps = (lat to, lon to).
Proof.
  rewrite fallbackPoint_real. cbn zeta.
  replace (INR steps / INR steps) with 1.
  - replace (PI * 1) with PI by ring. rewrite sin_PI. f_equal; ring.
  - unfold steps. rewrite INR_IZR_INZ. simpl. lra.
Qed.

End RealFallback.

Lemma fallbackPoint_coincident (c : Coords R) (i : nat) :
  fallbackPoint c c i = (lat c, lon c).
Proof.
  rewrite fallbackPoint_real. cbn zeta. f_equal; ring.
Qed.

(** ** The claims *)

(** C3.  For every routing failure (the request fails, the response is not
    OK or unreadable, the provider's status is not "Ok", the route list is
    missing or empty), in every model of [number], for every origin and
    destination (coincident or not) and whatever the component held before:
    [fetchRoadRoute] completes normally, no exception reaching its caller,
    and the full route it leaves is the synthesized fallback route, which has
    21 points and so is never an empty sequence. *)
Theorem routing_failure_yields_fallback :
  forall (number : Type) (JN : JsNumber number) (from to : Coords number)
         (current : option (Coords number))
         (fetched : Completion (Response number)) (st : State number),
    Failure fetched ->
    let r := fetchRoadRoute from to current fetched st in
    fst r = Normal tt /\
    routeData (snd r) = generateFallbackRoute from to /\
    length (routeData (snd r)) = 21%nat /\
    routeData (snd r) <> [].
Proof.
  intros number JN from to current fetched st F. cbn zeta.
  rewrite (fetchRoadRoute_failure from to current st F).
  cbn [fst snd afterFallback routeData].
  pose proof (generateFallbackRoute_length from to) as Hlen.
  repeat split; trivial.
  intros Hnil. rewrite Hnil in Hlen. discriminate.
Qed.

Lemma routing_failure_yields_fallback_witness :
  let r := fetchRoadRoute Inputs.west Inputs.east (Some Inputs.on_the_road)
             Inputs.no_route initialState in
  fst r = Normal tt /\
  routeData (snd r) = generateFallbackRoute Inputs.west Inputs.east /\
  length (routeData (snd r)) = 21%nat /\
  routeData (snd r) <> [].
Proof.
  apply (@routing_failure_yields_fallback R Real.number Inputs.west Inputs.east
           (Some Inputs.on_the_road) Inputs.no_route initialState).
  apply StatusNotOk. discriminate.
Defined.

(** C6.  When the provider answers with a route geometry, the full route
    that [fetchRoadRoute] stores is the element-wise swap of it: same length,
    same order, and the point at each index is [(lat, lon)] where the
    provider's pair at that index is [(lon, lat)]. *)
Theorem provider_order_is_swapped :
  forall (number : Type) (JN : JsNumber number) (from to : Coords number)
         (current : option (Coords number))
         (fetched : Completion (Response number)) (cs : list (number * number))
         (st : State number),
    Provides fetched cs ->
    let full := routeData (snd (fetchRoadRoute from to current fetched st)) in
    length full = length cs /\
    (forall i, nth_error full i
               = option_map (fun c => (snd c, fst c)) (nth_error cs i)) /\
    (forall i lon_ lat_, nth_error cs i = Some (lon_, lat_) ->
                         nth_error full i = Some (lat_, lon_)).
Proof.
  intros number JN from to current fetched cs st P. cbn zeta.
  rewrite (fetchRoadRoute_fetched from to current st P).
  cbn [snd afterFetched routeData].
  split; [apply length_map |].
  assert (Hnth : forall i, nth_error (map toLatLng cs) i
                           = option_map (fun c => (snd c, fst c)) (nth_error cs i)).
  { intros i. apply nth_error_map. }
  split; [exact Hnth |].
  intros i lon_ lat_ Hi. now rewrite Hnth, Hi.
Qed.

Lemma provider_order_is_swapped_witness :
  let full := routeData (snd (fetchRoadRoute Inputs.west Inputs.east None
                                Inputs.snapped initialState)) in
  length full = 3%nat /\
  (forall i, nth_error full i
             = option_map (fun c => (snd c, fst c))
                 (nth_error [(1, 0); (5, 1); (9, 0)]%R i)) /\
  (forall i lon_ lat_, nth_error [(1, 0); (5, 1); (9, 0)]%R i = Some (lon_, lat_) ->
                       nth_error full i = Some (lat_, lon_)).
Proof.
  apply (@provider_order_is_swapped R Real.number Inputs.west Inputs.east None
           Inputs.snapped [(1, 0); (5, 1); (9, 0)]%R initialState).
  eapply Provided; reflexivity.
Defined.

(** C7.  When the search answers with a list of candidates: with zero
    results [getCoords] returns null and [getCoordinatesFromAddress] signals
    "Address not found", each a reported failure of the lookup; with
    results, both return the first result's latitude and longitude parsed
    by [parseFloat]. *)
Theorem geocoding_reports_not_found :
  forall (number St : Type) (parseFloat : string -> number)
         (fetch : string -> Completion Geocode.Response)
         (place : string) (results : list Geocode.Candidate) (s : St),
    fetch place = Normal {| Geocode.json := Normal (Geocode.JArray results) |} ->
    Geocode.getCoords parseFloat fetch place s
    = (Normal match results with
              | [] => None
              | c :: _ => Some {| lat := parseFloat (Geocode.lat_text c);
                                  lon := parseFloat (Geocode.lon_text c) |}
              end, s) /\
    Geocode.getCoordinatesFromAddress parseFloat fetch place s
    = (match results with
       | [] => Thrown "Address not found"
       | c :: _ => Normal {| lat := parseFloat (Geocode.lat_text c);
                             lon := parseFloat (Geocode.lon_text c) |}
       end, s).
Proof.
  intros number St parseFloat fetch place results s Hfetch.
  unfold Geocode.getCoords, Geocode.getCoords_try, Geocode.getCoordinatesFromAddress,
    try_catch, bind, await.
  rewrite Hfetch. cbn [Geocode.json].
  destruct results as [| c rest]; split; reflexivity.
Qed.

Lemma geocoding_reports_not_found_witness :
  Geocode.getCoords Inputs.parseFloat Inputs.nowhere "Atlantis" tt = (Normal None, tt) /\
  Geocode.getCoordinatesFromAddress Inputs.parseFloat Inputs.nowhere "Atlantis" tt
  = (Thrown "Address not found", tt).
Proof.
  apply (geocoding_reports_not_found Inputs.parseFloat Inputs.nowhere "Atlantis"
           (results := []) tt).
  reflexivity.
Defined.

(** With candidates, both lookups take the first. *)
Example geocoding_takes_first_result :
  Geocode.getCoords Inputs.parseFloat Inputs.gazetteer "New York, NY" tt
  = (Normal (Some {| lat := 40.5%R; lon := (-74.25)%R |}), tt) /\
  Geocode.getCoordinatesFromAddress Inputs.parseFloat Inputs.gazetteer "New York, NY" tt
  = (Normal {| lat := 40.5%R; lon := (-74.25)%R |}, tt).
Proof. split; reflexivity. Qed.

(** ** The tracking page *)

Section Page.
Context {number : Type}.
Variable parseFloat : string -> number.
Variable fetch : string -> Completion Geocode.Response.

(** [getCoords] completes normally on every settlement of the request,
    with the first result or null, and leaves the state alone. *)
Lemma getCoords_returns (place : string) (s : TrackingPage.State number) :
  TrackingPage.getCoords parseFloat fetch place s
  = (Normal (geocoded parseFloat fetch place), s).
Proof.
  unfold TrackingPage.getCoords, Geocode.getCoords, Geocode.getCoords_try,
    try_catch, bind, await, geocoded, firstResult.
  destruct (fetch place) as [[[[| [| c rest] |] | m]] | m]; reflexivity.
Qed.

Lemma fetchCoordinates_try_runs (s : TrackingPage.State number) :
  TrackingPage.fetchCoordinates_try parseFloat fetch s
  = (Normal tt,
     {| TrackingPage.trackingNumber := TrackingPage.trackingNumber s;
        TrackingPage.shipmentData :=
          TrackingPage.withCoords (geocoded parseFloat fetch "New York, NY")
            (geocoded parseFloat fetch "San Francisco, CA")
            (geocoded parseFloat fetch "Denver, CO")
            (TrackingPage.shipmentData s);
        TrackingPage.isLoading := TrackingPage.isLoading s;
        TrackingPage.error := TrackingPage.error s;
        TrackingPage.mapLoaded := true |}).
Proof.
  unfold TrackingPage.fetchCoordinates_try.
  unfold bind at 1. rewrite getCoords_returns.
  unfold bind at 1. rewrite getCoords_returns.
  unfold bind at 1. rewrite getCoords_returns.
  reflexivity.
Qed.

End Page.

(** C10.  [getCoords] catches every error and returns the first result or
    null, so in every execution of [fetchCoordinates] the [try] block
    completes normally and the [catch] branch does not run: the page's error
    is left as it was; a lookup without a first result leaves the
    corresponding coordinate null; and the map card is rendered exactly when
    a shipment is shown whose origin and destination coordinates are both
    non-null. *)
Theorem fetchCoordinates_catch_unreachable :
  forall (number : Type) (parseFloat : string -> number)
         (fetch : string -> Completion Geocode.Response)
         (s : TrackingPage.State number),
    (forall place, exists c, TrackingPage.getCoords parseFloat fetch place s = (Normal c, s)) /\
    fst (TrackingPage.fetchCoordinates_try parseFloat fetch s) = Normal tt /\
    let s' := snd (TrackingPage.fetchCoordinates parseFloat fetch s) in
    fst (TrackingPage.fetchCoordinates parseFloat fetch s) = Normal tt /\
    TrackingPage.error s' = TrackingPage.error s /\
    TrackingPage.shipmentData s'
    = TrackingPage.withCoords (geocoded parseFloat fetch "New York, NY")
        (geocoded parseFloat fetch "San Francisco, CA")
        (geocoded parseFloat fetch "Denver, CO") (TrackingPage.shipmentData s) /\
    (forall place, firstResult (fetch place) = None ->
                   geocoded parseFloat fetch place = None) /\
    (TrackingPage.mapCardRendered s' = true <->
     TrackingPage.shipmentData s <> None /\
     geocoded parseFloat fetch "New York, NY" <> None /\
     geocoded parseFloat fetch "San Francisco, CA" <> None) /\
    (forall t : TrackingPage.State number,
        TrackingPage.mapCardRendered t = true <->
        exists d, TrackingPage.shipmentData t = Some d /\
                  TrackingPage.fromCoords d <> None /\ TrackingPage.toCoords d <> None).
Proof.
  intros number parseFloat fetch s.
  split. { intros place. eexists. apply getCoords_returns. }
  split. { now rewrite fetchCoordinates_try_runs. }
  cbn zeta. unfold TrackingPage.fetchCoordinates, try_catch.
  rewrite fetchCoordinates_try_runs. cbn [fst snd TrackingPage.error TrackingPage.shipmentData].
  split; [reflexivity |]. split; [reflexivity |]. split; [reflexivity |].
  split. { intros place H. unfold geocoded. now rewrite H. }
  split.
  - unfold TrackingPage.mapCardRendered, TrackingPage.withCoords.
    cbn [TrackingPage.shipmentData].
    destruct (TrackingPage.shipmentData s) as [d |];
      cbn [TrackingPage.fromCoords TrackingPage.toCoords].
    + destruct (geocoded parseFloat fetch "New York, NY"),
        (geocoded parseFloat fetch "San Francisco, CA");
        split; try discriminate; try (intros (_ & H1 & H2); congruence).
      intros _. repeat split; discriminate.
    + split; [discriminate | intros (H & _); congruence].
  - intros t. unfold TrackingPage.mapCardRendered.
    destruct (TrackingPage.shipmentData t) as [d |].
    + destruct (TrackingPage.fromCoords d) eqn:Hf, (TrackingPage.toCoords d) eqn:Ht;
        split; try discriminate;
        try (intros (d' & Hd & H1 & H2); injection Hd as <-; congruence).
      intros _. exists d. rewrite Hf, Ht. repeat split; discriminate.
    + split; [discriminate | intros (d & Hd & _); discriminate].
Qed.

(** ** The completed route after a resolution *)

(** A fetched route without a current coordinate: the completed route has
    exactly [floor (N * 0.6)] points. *)
Lemma fetched_without_current_length
      (from to : Coords R) (fetched : Completion (Response R))
      (cs : list (R * R)) (st : State R) :
  Provides fetched cs ->
  let st' := snd (fetchRoadRoute from to None fetched st) in
  length (completedRoute st') = Z.to_nat (completionPoint (routeData st')) /\
  length (completedRoute st') = (3 * length cs / 5)%nat.
Proof.
  intros P. cbn zeta. rewrite (fetchRoadRoute_fetched from to None st P).
  cbn [snd afterFetched completedRoute routeData].
  rewrite slice0_length by apply completionPoint_bounds.
  split; [reflexivity |].
  now rewrite completionPoint_real, Nat2Z.id, length_map.
Qed.

(** The fallback path without a current coordinate writes no completed
    route: the one held before the resolution stays. *)
Lemma fallback_without_current_keeps
      {number : Type} {JN : JsNumber number} (from to : Coords number)
      (fetched : Completion (Response number)) (st : State number) :
  Failure fetched ->
  completedRoute (snd (fetchRoadRoute from to None fetched st)) = completedRoute st.
Proof.
  intros F. now rewrite (fetchRoadRoute_failure from to None st F).
Qed.

(** The fallback path with a current coordinate takes the first
    [floor (21 * 0.6) = 12] synthesized points, wherever the current
    coordinate lies. *)
Lemma fallback_with_current_takes_12
      (from to cur : Coords R) (fetched : Completion (Response R)) (st : State R) :
  Failure fetched ->
  completedRoute (snd (fetchRoadRoute from to (Some cur) fetched st))
  = firstn 12 (generateFallbackRoute from to).
Proof.
  intros F. rewrite (fetchRoadRoute_failure from to (Some cur) st F).
  cbn [snd afterFallback completedRoute].
  rewrite slice0_firstn by apply completionPoint_bounds.
  now rewrite completionPoint_real, Nat2Z.id, generateFallbackRoute_length.
Qed.

Lemma closestPointIndex_at_origin (from to : Coords R) :
  closestPointIndex from (generateFallbackRoute from to) = 0%nat.
Proof.
  assert (H0 : nth_error (generateFallbackRoute from to) 0 = Some (lat from, lon from)).
  { rewrite generateFallbackRoute_nth by (unfold steps; lia).
    now rewrite fallbackPoint_first. }
  destruct (closestPointIndex_on_route from _ 0 H0) as (Hle & _). lia.
Qed.

(** C1.  Routing fails between two points of the equator, the component
    just mounted.  With the current coordinate at the origin, the [catch]
    block stores the first 12 synthesized points, where the rule of the
    fetched path (nearest point, inclusive) gives the first point alone.
    Without a current coordinate it stores nothing, the completed route
    staying empty, where the rule gives the first 12 points. *)
Theorem fallback_prefix_differs_from_rule :
  let st := snd (fetchRoadRoute Inputs.west Inputs.east (Some Inputs.west)
                   (Thrown "Failed to fetch") initialState) in
  let st0 := snd (fetchRoadRoute Inputs.west Inputs.east None
                    (Thrown "Failed to fetch") initialState) in
  (length (routeData st) = 21%nat /\
   completedRoute st = firstn 12 (routeData st) /\
   completedPrefixRule (Some Inputs.west) (routeData st) = firstn 1 (routeData st) /\
   length (completedRoute st) = 12%nat /\
   length (completedPrefixRule (Some Inputs.west) (routeData st)) = 1%nat) /\
  (length (routeData st0) = 21%nat /\
   completedRoute st0 = [] /\
   completedPrefixRule None (routeData st0) = firstn 12 (routeData st0) /\
   length (completedPrefixRule None (routeData st0)) = 12%nat).
Proof.
  cbn zeta.
  pose proof (NetworkError (number := R) "Failed to fetch") as F.
  pose proof (generateFallbackRoute_length Inputs.west Inputs.east) as Hlen.
  split.
  - rewrite (fallback_with_current_takes_12 Inputs.west Inputs.east Inputs.west initialState F).
    rewrite (fetchRoadRoute_failure Inputs.west Inputs.east (Some Inputs.west) initialState F).
    cbn [snd afterFallback routeData]. unfold completedPrefixRule.
    rewrite closestPointIndex_at_origin. cbn [Nat.add].
    rewrite !length_firstn, Hlen. repeat split; reflexivity.
  - rewrite (fallback_without_current_keeps Inputs.west Inputs.east initialState F).
    rewrite (fetchRoadRoute_failure Inputs.west Inputs.east None initialState F).
    cbn [snd afterFallback routeData initialState completedRoute].
    unfold completedPrefixRule.
    rewrite completionPoint_real, Nat2Z.id, Hlen.
    change (3 * 21 / 5)%nat with 12%nat.
    rewrite length_firstn, Hlen. repeat split; reflexivity.
Qed.

(** C2.  On doubles, whatever [Math.sin] computes: routing fails between New
    York and San Francisco with no current coordinate, the component just
    mounted.  The full route has [N = 21] points and [floor (N * 0.6)] is 12,
    but the completed route is empty. *)
Theorem fallback_without_current_is_empty :
  forall sin : float -> float,
    let JN := Binary64.number sin in
    let st := snd (fetchRoadRoute Inputs.new_york Inputs.san_francisco None
                     (Thrown "Failed to fetch") initialState) in
    length (routeData st) = 21%nat /\
    completionPoint (routeData st) = 12%Z /\
    completedRoute st = [] /\
    length (completedRoute st) = 0%nat.
Proof.
  intros sin. cbn zeta.
  repeat split; vm_compute; reflexivity.
Qed.

(** C8.  Two resolutions in one mounted component, between two points of
    the equator.  The first fetches a route and, the current coordinate being
    its second point, completes its first two points.  Then the props change
    to no current coordinate and routing fails: the full route becomes the
    synthesized one, the completed route is still the two points of the
    earlier route, and it is not a prefix of the full route. *)
Theorem stale_completed_route_is_no_prefix :
  let st1 := snd (fetchRoadRoute Inputs.west Inputs.east (Some Inputs.on_the_road)
                    Inputs.snapped initialState) in
  let st2 := snd (fetchRoadRoute Inputs.west Inputs.east None
                    (Thrown "Failed to fetch") st1) in
  routeData st1 = [(0, 1); (1, 5); (0, 9)]%R /\
  completedRoute st1 = [(0, 1); (1, 5)]%R /\
  routeData st2 = generateFallbackRoute Inputs.west Inputs.east /\
  completedRoute st2 = [(0, 1); (1, 5)]%R /\
  ~ Prefix (completedRoute st2) (routeData st2).
Proof.
  cbn zeta.
  pose proof (NetworkError (number := R) "Failed to fetch") as F.
  assert (P : Provides Inputs.snapped [(1, 0); (5, 1); (9, 0)]%R).
  { unfold Inputs.snapped. eapply Provided; reflexivity. }
  assert (H1 : snd (fetchRoadRoute Inputs.west Inputs.east (Some Inputs.on_the_road)
                      Inputs.snapped initialState)
               = {| routeData := [(0, 1); (1, 5); (0, 9)]%R;
                    completedRoute := [(0, 1); (1, 5)]%R;
                    isLoading := false; error := "" |}).
  { rewrite (fetchRoadRoute_fetched Inputs.west Inputs.east (Some Inputs.on_the_road)
               initialState P).
    cbn [snd]. unfold afterFetched, toLatLng.
    cbn [map fst snd length Nat.eqb initialState error].
    f_equal.
    match goal with
    | |- context [closestPointIndex ?c ?l] =>
        destruct (closestPointIndex_on_route c l 1 eq_refl) as (Hle & Hi & _);
        destruct (closestPointIndex c l) as [| [| i]]; [| reflexivity | lia]
    end.
    cbn in Hi. injection Hi as Ha Hb. lra. }
  rewrite H1. cbn [routeData completedRoute].
  rewrite (fallback_without_current_keeps Inputs.west Inputs.east _ F).
  rewrite (fetchRoadRoute_failure Inputs.west Inputs.east None _ F).
  cbn [snd afterFallback routeData completedRoute].
  repeat split; trivial.
  intros (k & _ & Hk).
  unfold generateFallbackRoute in Hk. cbn -[fallbackPoint] in Hk.
  rewrite fallbackPoint_first in Hk.
  destruct k as [| k]; [discriminate Hk |].
  apply (f_equal (@hd_error _)) in Hk.
  cbn [firstn hd_error Inputs.west lat lon] in Hk.
  injection Hk as Hlon. lra.
Qed.

(** ** Coincident origin and destination *)

(** On doubles, adding an offset that was multiplied by zero to a finite
    number gives that number back, or NaN when the multiplied value was not
    finite. *)
Lemma binary64_add_zero_offset (c z : float) :
  (exists s m e, Prim2SF c = S754_finite s m e) ->
  PrimFloat.add c (PrimFloat.mul z 0%float) = c
  \/ Prim2SF (PrimFloat.add c (PrimFloat.mul z 0%float)) = S754_nan.
Proof.
  intros (s & m & e & Hc).
  assert (H : Prim2SF (PrimFloat.add c (PrimFloat.mul z 0%float)) = Prim2SF c
              \/ Prim2SF (PrimFloat.add c (PrimFloat.mul z 0%float)) = S754_nan).
  { rewrite add_spec, mul_spec, Hc.
    change (Prim2SF 0%float) with (S754_zero false).
    destruct (Prim2SF z) as [sz | sz | | sz mz ez]; cbn; auto. }
  destruct H as [H | H]; [left; now apply Prim2SF_inj | right; exact H].
Qed.

(** C9, as stated, fails on doubles: with origin and destination both at New
    York, whatever [Math.sin] computes, the synthesized points are not all
    equal to that coordinate (the point at [i = 4] has latitude
    40.71280000000001). *)
Lemma coincident_fallback_inexact_on_doubles :
  ~ exists sin : float -> float,
      Forall (fun p => p = (lat Inputs.new_york, lon Inputs.new_york))
             (generateFallbackRoute (JN := Binary64.number sin)
                Inputs.new_york Inputs.new_york).
Proof.
  intros [sin H]. rewrite Forall_forall in H.
  specialize (H (fallbackPoint (JN := Binary64.number sin)
                   Inputs.new_york Inputs.new_york 4)).
  assert (Hin : In (fallbackPoint (JN := Binary64.number sin)
                      Inputs.new_york Inputs.new_york 4)
                   (generateFallbackRoute (JN := Binary64.number sin)
                      Inputs.new_york Inputs.new_york)).
  { unfold generateFallbackRoute. apply in_map. cbn. tauto. }
  specialize (H Hin). clear Hin.
  apply (f_equal fst) in H. vm_compute in H.
  match type of H with
  | PrimFloat.add ?c (PrimFloat.mul ?z _) = _ =>
      destruct (binary64_add_zero_offset c z) as [E | E];
      [ do 3 eexists; vm_compute; reflexivity | rewrite E in H | rewrite H in E ]
  end.
  - apply (f_equal (fun x => PrimFloat.eqb x 0x1.45b3d07c84b5ep+5%float)) in H.
    vm_compute in H. discriminate H.
  - vm_compute in E. discriminate E.
Qed.

(** C9, amended.  When origin and destination coincide, the fallback
    generator still returns 21 points, in every model of [number], so the
    route is not empty; in exact arithmetic every one of them equals the
    coincident coordinate. *)
Theorem coincident_fallback_route :
  (forall (number : Type) (JN : JsNumber number) (c : Coords number),
      length (generateFallbackRoute c c) = 21%nat /\ generateFallbackRoute c c <> []) /\
  (forall c : Coords R,
      Forall (fun p => p = (lat c, lon c)) (generateFallbackRoute c c) /\
      generateFallbackRoute c c = repeat (lat c, lon c) 21).
Proof.
  split.
  - intros number JN c.
    pose proof (generateFallbackRoute_length c c) as Hlen.
    split; [exact Hlen |]. intros Hnil. rewrite Hnil in Hlen. discriminate.
  - intros c.
    assert (Hall : Forall (fun p => p = (lat c, lon c)) (generateFallbackRoute c c)).
    { apply Forall_forall. intros p Hp.
      apply generateFallbackRoute_points in Hp. destruct Hp as (i & _ & ->).
      apply fallbackPoint_coincident. }
    split; [exact Hall |].
    unfold generateFallbackRoute. cbn -[fallbackPoint].
    now rewrite !fallbackPoint_coincident.
Qed.

(** ** Runs on doubles *)

Section Doubles.
Variable sin : float -> float.
Let JN : JsNumber float := Binary64.number sin.
Existing Instance JN.

(** A fetched route and a current coordinate on it: truncated at the first
    of the two indices at distance zero, inclusive. *)
Example fetched_with_current_on_doubles :
  snd (fetchRoadRoute Inputs.new_york Inputs.san_francisco
         (Some Inputs.turning_point) Inputs.round_trip initialState)
  = {| routeData := [(40.5, -74.25); (40.75, -74); (41, -73.5);
                     (40.75, -74); (41.5, -73)]%float;
       completedRoute := [(40.5, -74.25); (40.75, -74)]%float;
       isLoading := false; error := "" |}.
Proof. vm_compute. reflexivity. Qed.

(** A fetched route of five points without a current coordinate:
    [Math.floor(5 * 0.6)] is 3. *)
Example fetched_without_current_on_doubles :
  completedRoute
    (snd (fetchRoadRoute Inputs.new_york Inputs.san_francisco None
            Inputs.round_trip initialState))
  = [(40.5, -74.25); (40.75, -74); (41, -73.5)]%float.
Proof. vm_compute. reflexivity. Qed.

(** [Math.floor(n * 0.6)] on doubles is the quotient of [3 n] by [5] for
    every length up to 2000. *)
Example floor_six_tenths_on_doubles :
  forallb (fun n => (Math_floor (mul (ofNat n) num_0_6) =? Z.of_nat (3 * n / 5))%Z)
          (seq 0 2001) = true.
Proof. vm_compute. reflexivity. Qed.

(** With [Math.sin(0) = 0], which ECMAScript fixes, the first synthesized
    point between New York and San Francisco is New York, bit for bit. *)
Example fallback_first_point_on_doubles :
  sin 0%float = 0%float ->
  nth_error (generateFallbackRoute Inputs.new_york Inputs.san_francisco) 0
  = Some (lat Inputs.new_york, lon Inputs.new_york).
Proof. intros H0. vm_compute. rewrite H0. vm_compute. reflexivity. Qed.

End Doubles.

(** * Further properties of the code *)

(** ** The nearest-point scan in every model of [number] *)

Section Scan.
Context {number : Type} {JN : JsNumber number}.

(** The scan leaves its accumulator alone or moves the index to one of the
    positions it visits. *)
Lemma forEach_visit_index (cur : Coords number) (l : list (LatLng number)) :
  forall (index : nat) (acc : nat * number),
    forEach_from (visit cur) l index acc = acc
    \/ (index <= fst (forEach_from (visit cur) l index acc) < index + length l)%nat.
Proof.
  induction l as [| x rest IH]; intros index acc; cbn [forEach_from length].
  - now left.
  - assert (Hv : visit cur acc x index = (index, distance cur x)
                 \/ visit cur acc x index = acc).
    { unfold visit. cbn zeta. destruct (lt (distance cur x) (snd acc)); auto. }
    destruct Hv as [-> | ->].
    + destruct (IH (S index) (index, distance cur x)) as [H | H].
      * right. rewrite H. cbn [fst]. lia.
      * right. lia.
    + destruct (IH (S index) acc) as [H | H]; [left; exact H | right; lia].
Qed.

Lemma closestPointIndex_lt_length (cur : Coords number) (route : list (LatLng number)) :
  route <> [] -> (closestPointIndex cur route < length route)%nat.
Proof.
  intros Hne. unfold closestPointIndex, forEach.
  destruct route as [| p rest]; [contradiction |].
  destruct (forEach_visit_index cur (p :: rest) 0 (0%nat, Number_MAX_VALUE)) as [-> | H].
  - cbn. lia.
  - lia.
Qed.

End Scan.

(** X1.  In every model of [number] (so also for doubles that are NaN or
    infinite), on a non-empty route and with a current coordinate,
    [calculateCompletedRoute] picks an index inside the route and stores the
    points up to it, inclusive: between 1 and N points, and the full route is
    not touched. *)
Theorem nearest_prefix_is_within_route :
  forall (number : Type) (JN : JsNumber number) (cur : Coords number)
         (route : list (LatLng number)) (st : State number),
    route <> [] ->
    let i := closestPointIndex cur route in
    let st' := snd (calculateCompletedRoute (Some cur) route st) in
    (i < length route)%nat /\
    completedRoute st' = firstn (i + 1) route /\
    (1 <= length (completedRoute st') <= length route)%nat /\
    routeData st' = routeData st.
Proof.
  intros number JN cur route st Hne. cbn zeta.
  pose proof (closestPointIndex_lt_length cur Hne) as Hlt.
  assert (Hc : completedRoute (snd (calculateCompletedRoute (Some cur) route st))
               = firstn (closestPointIndex cur route + 1) route).
  { unfold calculateCompletedRoute.
    destruct route as [| p rest]; [contradiction |].
    cbn [length Nat.eqb setCompletedRoute modify snd completedRoute].
    rewrite slice0_firstn by lia. f_equal. lia. }
  split; [exact Hlt |]. split; [exact Hc |]. split.
  - rewrite Hc, length_firstn. lia.
  - unfold calculateCompletedRoute.
    destruct route as [| p rest]; [contradiction | reflexivity].
Qed.

Lemma nearest_prefix_is_within_route_witness :
  let i := closestPointIndex Inputs.crossing Inputs.loop in
  let st' := snd (calculateCompletedRoute (Some Inputs.crossing) Inputs.loop initialState) in
  (i < length Inputs.loop)%nat /\
  completedRoute st' = firstn (i + 1) Inputs.loop /\
  (1 <= length (completedRoute st') <= length Inputs.loop)%nat /\
  routeData st' = routeData initialState.
Proof.
  apply (@nearest_prefix_is_within_route R Real.number Inputs.crossing Inputs.loop
           initialState).
  discriminate.
Defined.

(** ** Resolutions, one after another *)

(** X2.  Whatever the provider does and whatever the component held, a
    resolution completes normally and ends with the loading flag off; it puts
    the error text there on a failure and leaves the error cell as it was on a
    fetched route. *)
Theorem every_resolution_settles :
  forall (number : Type) (JN : JsNumber number) (from to : Coords number)
         (current : option (Coords number))
         (fetched : Completion (Response number)) (st : State number),
    let r := fetchRoadRoute from to current fetched st in
    fst r = Normal tt /\
    isLoading (snd r) = false /\
    ((Failure fetched /\ error (snd r) = "Could not load road route data"%string)
     \/ ((exists cs, Provides fetched cs) /\ error (snd r) = error st)).
Proof.
  intros number JN from to current fetched st. cbn zeta.
  destruct (Failure_or_Provides fetched) as [F | [cs P]].
  - rewrite (fetchRoadRoute_failure from to current st F).
    repeat split. left. now split.
  - rewrite (fetchRoadRoute_fetched from to current st P).
    repeat split. right. split; [now exists cs | reflexivity].
Qed.

(** X3.  A fetched route does not clear the error of an earlier failure: when
    a resolution fails and the next one fetches a route, the component holds
    the road route together with the text "Could not load road route data". *)
Theorem fetched_route_keeps_earlier_error :
  forall (number : Type) (JN : JsNumber number) (from to from' to' : Coords number)
         (current current' : option (Coords number))
         (failed fetched : Completion (Response number))
         (cs : list (number * number)) (st : State number),
    Failure failed -> Provides fetched cs ->
    let st1 := snd (fetchRoadRoute from to current failed st) in
    let st2 := snd (fetchRoadRoute from' to' current' fetched st1) in
    routeData st2 = map toLatLng cs /\
    isLoading st2 = false /\
    error st2 = "Could not load road route data"%string.
Proof.
  intros number JN from to from' to' current current' failed fetched cs st F P.
  cbn zeta.
  rewrite (fetchRoadRoute_failure from to current st F).
  rewrite (fetchRoadRoute_fetched from' to' current' _ P).
  repeat split.
Qed.

Lemma fetched_route_keeps_earlier_error_witness :
  let st1 := snd (fetchRoadRoute Inputs.west Inputs.east None Inputs.no_route
                    initialState) in
  let st2 := snd (fetchRoadRoute Inputs.west Inputs.east None Inputs.snapped st1) in
  routeData st2 = map toLatLng [(1, 0); (5, 1); (9, 0)]%R /\
  isLoading st2 = false /\
  error st2 = "Could not load road route data"%string.
Proof.
  apply (@fetched_route_keeps_earlier_error R Real.number Inputs.west Inputs.east
           Inputs.west Inputs.east None None Inputs.no_route Inputs.snapped
           [(1, 0); (5, 1); (9, 0)]%R initialState).
  - apply StatusNotOk. discriminate.
  - eapply Provided; reflexivity.
Defined.

(** X4.  In every model of [number], after a resolution the completed route
    is a prefix of the full route whenever the resolution writes it or none
    was held before: the component held no completed route, or the fallback
    runs with a current coordinate, or a route is fetched without a current
    coordinate, or a non-empty route is fetched. *)
Theorem completed_is_prefix_when_written :
  forall (number : Type) (JN : JsNumber number) (from to : Coords number)
         (current : option (Coords number))
         (fetched : Completion (Response number)) (st : State number),
    completedRoute st = []
    \/ (current <> None /\ Failure fetched)
    \/ (current = None /\ exists cs, Provides fetched cs)
    \/ (exists cs, cs <> [] /\ Provides fetched cs) ->
    let st' := snd (fetchRoadRoute from to current fetched st) in
    Prefix (completedRoute st') (routeData st').
Proof.
  intros number JN from to current fetched st H. cbn zeta.
  destruct H as [Hnil | [[Hcur F] | [[Hcur [cs P]] | [cs [Hne P]]]]].
  - now apply first_resolution_Prefix.
  - rewrite (fetchRoadRoute_failure from to current st F).
    cbn [snd afterFallback completedRoute routeData].
    destruct current; [apply slice0_Prefix | contradiction].
  - rewrite (fetchRoadRoute_fetched from to current st P). subst current.
    cbn [snd afterFetched completedRoute routeData]. apply slice0_Prefix.
  - rewrite (fetchRoadRoute_fetched from to current st P).
    cbn [snd afterFetched completedRoute routeData].
    destruct current; [| apply slice0_Prefix].
    destruct cs as [| pair rest]; [contradiction |].
    cbn [map length Nat.eqb]. apply slice0_Prefix.
Qed.

Lemma completed_is_prefix_when_written_witness :
  let st' := snd (fetchRoadRoute Inputs.west Inputs.east (Some Inputs.on_the_road)
                    Inputs.snapped initialState) in
  Prefix (completedRoute st') (routeData st').
Proof.
  apply (@completed_is_prefix_when_written R Real.number Inputs.west Inputs.east
           (Some Inputs.on_the_road) Inputs.snapped initialState).
  left. reflexivity.
Defined.

(** X5.  A fetched route of N points without a current coordinate: the
    completed route is its first [3 N / 5] points, rounded down (exact
    arithmetic).  So a route of one point has an empty completed route, a
    route of two or more points a non-empty one, and only the empty route is
    completed whole. *)
Theorem fetched_default_is_three_fifths :
  forall (from to : Coords R) (fetched : Completion (Response R))
         (cs : list (R * R)) (st : State R),
    Provides fetched cs ->
    let st' := snd (fetchRoadRoute from to None fetched st) in
    completedRoute st' = firstn (3 * length cs / 5) (routeData st') /\
    length (completedRoute st') = (3 * length cs / 5)%nat /\
    ((length cs <= 1)%nat -> completedRoute st' = []) /\
    ((2 <= length cs)%nat -> completedRoute st' <> []) /\
    ((1 <= length cs)%nat -> (length (completedRoute st') < length (routeData st'))%nat).
Proof.
  intros from to fetched cs st P. cbn zeta.
  destruct (fetched_without_current_length from to st P) as [_ Hlen].
  rewrite (fetchRoadRoute_fetched from to None st P) in *.
  cbn [snd afterFetched completedRoute routeData] in *.
  assert (Hq : (3 * length cs / 5 <= length cs)%nat).
  { apply Nat.Div0.div_le_upper_bound. lia. }
  split.
  { rewrite slice0_firstn by apply completionPoint_bounds.
    now rewrite completionPoint_real, Nat2Z.id, length_map. }
  split; [exact Hlen |].
  split; [| split].
  - intros H1. apply length_zero_iff_nil. rewrite Hlen.
    destruct (length cs) as [| [| n]]; [reflexivity | reflexivity | lia].
  - intros H2 Hnil. rewrite Hnil in Hlen. cbn [length] in Hlen.
    assert (1 <= 3 * length cs / 5)%nat; [| lia].
    apply Nat.div_le_lower_bound; lia.
  - intros H1. rewrite Hlen, length_map.
    apply Nat.Div0.div_lt_upper_bound. lia.
Qed.

Lemma fetched_default_is_three_fifths_witness :
  let st' := snd (fetchRoadRoute Inputs.west Inputs.east None Inputs.snapped
                    initialState) in
  completedRoute st' = firstn (3 * 3 / 5) (routeData st') /\
  length (completedRoute st') = (3 * 3 / 5)%nat /\
  ((3 <= 1)%nat -> completedRoute st' = []) /\
  ((2 <= 3)%nat -> completedRoute st' <> []) /\
  ((1 <= 3)%nat -> (length (completedRoute st') < length (routeData st'))%nat).
Proof.
  apply (@fetched_default_is_three_fifths Inputs.west Inputs.east Inputs.snapped
           [(1, 0); (5, 1); (9, 0)]%R initialState).
  eapply Provided; reflexivity.
Defined.

(** X6.  In every model of [number], a resolution run a second time with
    the same props and the same answer changes nothing more, and the full
    route it leaves does not depend on what the component held before. *)
Theorem resolution_is_idempotent :
  forall (number : Type) (JN : JsNumber number) (from to : Coords number)
         (current : option (Coords number))
         (fetched : Completion (Response number)) (st st0 : State number),
    let once := snd (fetchRoadRoute from to current fetched st) in
    snd (fetchRoadRoute from to current fetched once) = once /\
    routeData (snd (fetchRoadRoute from to current fetched st0)) = routeData once.
Proof.
  intros number JN from to current fetched st st0. cbn zeta.
  destruct (Failure_or_Provides fetched) as [F | [cs P]].
  - rewrite !(fetchRoadRoute_failure from to current _ F). cbn [snd].
    split; [| reflexivity].
    unfold afterFallback. cbn [completedRoute]. now destruct current.
  - rewrite !(fetchRoadRoute_fetched from to current _ P). cbn [snd].
    split; [| reflexivity].
    unfold afterFetched. cbn [completedRoute error].
    destruct current; [| reflexivity].
    now destruct (length (map toLatLng cs) =? 0)%nat.
Qed.

(** ** The rendered map *)

Lemma map_pair_id {A B} (l : list (A * B)) :
  map (fun point => (fst point, snd point)) l = l.
Proof.
  induction l as [| [a b] l IH]; [reflexivity |].
  cbn [map fst snd]. now rewrite IH.
Qed.

(** X10.  [map.fitBounds] never gets an empty list: with route data it gets
    exactly the route's points, in order and without the markers; without
    route data it gets the origin and destination markers, and the current
    one when there is one. *)
Theorem fit_bounds_is_never_empty :
  forall (number : Type) (from to : Coords number) (current : option (Coords number))
         (routeData : list (LatLng number)),
    let bounds := MapView.fitBoundsPoints from to current routeData in
    bounds <> [] /\
    (routeData <> [] -> bounds = routeData) /\
    (routeData = [] ->
     (2 <= length bounds <= 3)%nat /\
     nth_error bounds 0 = Some (lat from, lon from) /\
     nth_error bounds 1 = Some (lat to, lon to) /\
     nth_error bounds 2 = option_map (fun c => (lat c, lon c)) current).
Proof.
  intros number from to current routeData. cbn zeta.
  unfold MapView.fitBoundsPoints.
  destruct routeData as [| p rest].
  - cbn [length Nat.ltb Nat.leb app]. split; [discriminate |].
    split; [intros H; now contradiction H |].
    intros _. destruct current; cbn; repeat split; lia.
  - cbn [length Nat.ltb Nat.leb]. rewrite map_pair_id.
    split; [discriminate |]. split; [reflexivity | discriminate].
Qed.

(** ** A current coordinate that is not a number (doubles) *)

Section NotANumber.

Lemma isNaN_sub_l (x y : float) : isNaN x -> isNaN (PrimFloat.sub x y).
Proof. unfold isNaN. intros H. rewrite sub_spec, H. reflexivity. Qed.

Lemma isNaN_mul_l (x y : float) : isNaN x -> isNaN (PrimFloat.mul x y).
Proof. unfold isNaN. intros H. rewrite mul_spec, H. reflexivity. Qed.

Lemma isNaN_add_l (x y : float) : isNaN x -> isNaN (PrimFloat.add x y).
Proof. unfold isNaN. intros H. rewrite add_spec, H. reflexivity. Qed.

Lemma isNaN_add_r (x y : float) : isNaN y -> isNaN (PrimFloat.add x y).
Proof.
  unfold isNaN. intros H. rewrite add_spec, H.
  now destruct (Prim2SF x).
Qed.

Lemma isNaN_sqrt (x : float) : isNaN x -> isNaN (PrimFloat.sqrt x).
Proof. unfold isNaN. intros H. rewrite sqrt_spec, H. reflexivity. Qed.

Lemma isNaN_ltb (x y : float) : isNaN x -> PrimFloat.ltb x y = false.
Proof. unfold isNaN. intros H. rewrite ltb_spec, H. reflexivity. Qed.

Variable sin : float -> float.
Let JN : JsNumber float := Binary64.number sin.
Existing Instance JN.

Lemma distance_isNaN (cur : Coords float) (p : LatLng float) :
  isNaN (lat cur) \/ isNaN (lon cur) -> isNaN (distance cur p).
Proof.
  intros H. unfold distance. cbn zeta.
  cbn [Math_sqrt Math_pow add sub JN Binary64.number Binary64.pow].
  apply isNaN_sqrt. destruct H as [H | H].
  - apply isNaN_add_l, isNaN_mul_l, isNaN_sub_l, H.
  - apply isNaN_add_r, isNaN_mul_l, isNaN_sub_l, H.
Qed.

Lemma forEach_visit_isNaN (cur : Coords float) (l : list (LatLng float)) :
  isNaN (lat cur) \/ isNaN (lon cur) ->
  forall index acc, forEach_from (visit cur) l index acc = acc.
Proof.
  intros H. induction l as [| p rest IH]; intros index acc; cbn [forEach_from].
  - reflexivity.
  - assert (Hv : visit cur acc p index = acc).
    { unfold visit. cbn zeta. cbn [lt JN Binary64.number].
      now rewrite (isNaN_ltb _ (distance_isNaN cur p H)). }
    rewrite Hv. apply IH.
Qed.

End NotANumber.

(** X12.  On doubles, whatever [Math.sin] computes: when the latitude or the
    longitude of the current coordinate is NaN, every distance is NaN, no
    comparison succeeds, the scan stays at index 0, and the completed route
    of a non-empty route is its first point alone. *)
Theorem nan_current_completes_first_point :
  forall (sin : float -> float) (cur : Coords float)
         (route : list (LatLng float)) (st : State float),
    lat cur = PrimFloat.nan \/ lon cur = PrimFloat.nan ->
    route <> [] ->
    let JN := Binary64.number sin in
    closestPointIndex cur route = 0%nat /\
    completedRoute (snd (calculateCompletedRoute (Some cur) route st))
    = firstn 1 route.
Proof.
  intros sin cur route st H Hne. cbn zeta.
  assert (Hnan : isNaN (lat cur) \/ isNaN (lon cur)).
  { destruct H as [-> | ->]; [left | right]; reflexivity. }
  assert (H0 : closestPointIndex (JN := Binary64.number sin) cur route = 0%nat).
  { unfold closestPointIndex, forEach.
    now rewrite (forEach_visit_isNaN sin cur route Hnan). }
  split; [exact H0 |].
  unfold calculateCompletedRoute. rewrite H0.
  destruct route as [| p rest]; [contradiction |].
  cbn [length Nat.eqb setCompletedRoute modify snd completedRoute].
  rewrite slice0_firstn by lia. reflexivity.
Qed.

Lemma nan_current_completes_first_point_witness :
  let JN := Binary64.number (fun x => x) in
  closestPointIndex MoreInputs.unparsed
    [(40.5, -74.25); (40.75, -74); (41, -73.5)]%float = 0%nat /\
  completedRoute
    (snd (calculateCompletedRoute (Some MoreInputs.unparsed)
            [(40.5, -74.25); (40.75, -74); (41, -73.5)]%float initialState))
  = firstn 1 [(40.5, -74.25); (40.75, -74); (41, -73.5)]%float.
Proof.
  apply (@nan_current_completes_first_point (fun x => x) MoreInputs.unparsed
           [(40.5, -74.25); (40.75, -74); (41, -73.5)]%float initialState).
  - left. reflexivity.
  - discriminate.
Defined.

(** ** The two lookups *)

(** X13.  [getCoords] of the page and [getCoordinatesFromAddress] of the
    library agree on every settlement of the search request: the page's
    lookup returns the coordinates that the library's returns, and null
    exactly where the library's throws; neither touches any state.  The
    library's lookup passes on the rejection of the request or of the body
    unchanged. *)
Theorem lookups_agree :
  forall (number St : Type) (parseFloat : string -> number)
         (fetch : string -> Completion Geocode.Response) (place : string) (s : St),
    let strict := Geocode.getCoordinatesFromAddress parseFloat fetch place s in
    Geocode.getCoords parseFloat fetch place s
    = (Normal match fst strict with
              | Normal c => Some c
              | Thrown _ => None
              end, s) /\
    snd strict = s /\
    (forall message, fetch place = Thrown message -> fst strict = Thrown message) /\
    (forall message, fetch place = Normal {| Geocode.json := Thrown message |} ->
                     fst strict = Thrown message).
Proof.
  intros number St parseFloat fetch place s. cbn zeta.
  unfold Geocode.getCoords, Geocode.getCoords_try, Geocode.getCoordinatesFromAddress,
    try_catch, bind, await.
  destruct (fetch place) as [[[[| [| c rest] |] | m]] | m]; cbn [Geocode.json fst snd];
    repeat split; intros; congruence.
Qed.

(** ** A search on the tracking page *)

Section SearchRuns.
Context {number : Type}.
Variable parseFloat : string -> number.
Variable fetch : string -> Completion Geocode.Response.
Variable trim : string -> string.

Lemma search_blank (s : TrackingPage.State number) :
  trim (TrackingPage.trackingNumber s) = ""%string ->
  Search.search parseFloat fetch trim s
  = (Normal tt,
     {| TrackingPage.trackingNumber := TrackingPage.trackingNumber s;
        TrackingPage.shipmentData := None;
        TrackingPage.isLoading := false;
        TrackingPage.error := "Please enter a valid tracking number";
        TrackingPage.mapLoaded := TrackingPage.mapLoaded s |}).
Proof.
  intros Hb. unfold Search.search, Search.handleSearch, Search.handleSearch_timer.
  unfold bind at 1. cbn [bind ret Search.setIsLoading TrackingPage.setError modify
                           TrackingPage.trackingNumber].
  unfold bind at 1. cbn [TrackingPage.trackingNumber].
  rewrite Hb. reflexivity.
Qed.

Lemma search_not_blank (s : TrackingPage.State number) :
  trim (TrackingPage.trackingNumber s) <> ""%string ->
  Search.search parseFloat fetch trim s
  = (Normal tt,
     {| TrackingPage.trackingNumber := TrackingPage.trackingNumber s;
        TrackingPage.shipmentData :=
          TrackingPage.withCoords (geocoded parseFloat fetch "New York, NY")
            (geocoded parseFloat fetch "San Francisco, CA")
            (geocoded parseFloat fetch "Denver, CO")
            (Some TrackingPage.mockShipmentData);
        TrackingPage.isLoading := false;
        TrackingPage.error := "";
        TrackingPage.mapLoaded := true |}).
Proof.
  intros Hb. unfold Search.search, Search.handleSearch, Search.handleSearch_timer.
  unfold bind at 1. cbn [bind ret Search.setIsLoading TrackingPage.setError modify
                           TrackingPage.trackingNumber].
  unfold bind at 1. cbn [TrackingPage.trackingNumber].
  destruct (String.eqb_spec (trim (TrackingPage.trackingNumber s)) "") as [E | _];
    [contradiction |].
  cbn [bind ret TrackingPage.setShipmentData Search.setIsLoading modify when].
  unfold TrackingPage.fetchCoordinates, try_catch.
  rewrite fetchCoordinates_try_runs. reflexivity.
Qed.

End SearchRuns.

(** X14.  A search with a blank tracking number, whatever the page showed
    before: the shipment and with it the map card are removed, the alert
    reads "Please enter a valid tracking number", the button is enabled
    again, and the outcome is the same for every search endpoint (no lookup
    has a part in it). *)
Theorem blank_search_clears_the_shipment :
  forall (number : Type) (parseFloat : string -> number)
         (fetch : string -> Completion Geocode.Response) (trim : string -> string)
         (s : TrackingPage.State number),
    trim (TrackingPage.trackingNumber s) = ""%string ->
    let r := Search.search parseFloat fetch trim s in
    fst r = Normal tt /\
    TrackingPage.shipmentData (snd r) = None /\
    TrackingPage.mapCardRendered (snd r) = false /\
    Search.errorAlert (snd r) = Some "Please enter a valid tracking number"%string /\
    Search.buttonDisabled (snd r) = false /\
    TrackingPage.mapLoaded (snd r) = TrackingPage.mapLoaded s /\
    TrackingPage.trackingNumber (snd r) = TrackingPage.trackingNumber s /\
    (forall fetch', Search.search parseFloat fetch' trim s = r).
Proof.
  intros number parseFloat fetch trim s Hb. cbn zeta.
  rewrite (search_blank parseFloat fetch trim s Hb). repeat split.
  intros fetch'. apply (search_blank parseFloat fetch' trim s Hb).
Qed.

Lemma blank_search_clears_the_shipment_witness :
  let r := Search.search Inputs.parseFloat Inputs.gazetteer MoreInputs.trim
             (MoreInputs.typed "   ") in
  fst r = Normal tt /\
  TrackingPage.shipmentData (snd r) = None /\
  TrackingPage.mapCardRendered (snd r) = false /\
  Search.errorAlert (snd r) = Some "Please enter a valid tracking number"%string /\
  Search.buttonDisabled (snd r) = false /\
  TrackingPage.mapLoaded (snd r) = TrackingPage.mapLoaded (MoreInputs.typed "   ") /\
  TrackingPage.trackingNumber (snd r)
  = TrackingPage.trackingNumber (MoreInputs.typed "   ") /\
  (forall fetch', Search.search Inputs.parseFloat fetch' MoreInputs.trim
                    (MoreInputs.typed "   ") = r).
Proof.
  apply (@blank_search_clears_the_shipment R Inputs.parseFloat Inputs.gazetteer
           MoreInputs.trim (MoreInputs.typed "   ")).
  reflexivity.
Defined.

(** X15.  A search with a non-blank tracking number, whatever the number and
    whatever the page showed before, nothing else happening meanwhile: the
    shipment shown is the mock one, "SHP12345678", with the coordinates that
    the three lookups obtained; no alert is shown, also when every lookup
    fails; the button is enabled again; and the map card receives origin,
    destination and current coordinate exactly when the lookups of origin and
    destination both found a result. *)
Theorem search_shows_the_mock_shipment :
  forall (number : Type) (parseFloat : string -> number)
         (fetch : string -> Completion Geocode.Response) (trim : string -> string)
         (s : TrackingPage.State number),
    trim (TrackingPage.trackingNumber s) <> ""%string ->
    let r := Search.search parseFloat fetch trim s in
    fst r = Normal tt /\
    Search.shownConsignment (snd r) = Some "SHP12345678"%string /\
    Search.errorAlert (snd r) = None /\
    Search.buttonDisabled (snd r) = false /\
    TrackingPage.mapLoaded (snd r) = true /\
    Search.mapProps (snd r)
    = match geocoded parseFloat fetch "New York, NY",
            geocoded parseFloat fetch "San Francisco, CA" with
      | Some f, Some t => Some (f, t, geocoded parseFloat fetch "Denver, CO")
      | _, _ => None
      end /\
    (TrackingPage.mapCardRendered (snd r) = true <-> Search.mapProps (snd r) <> None).
Proof.
  intros number parseFloat fetch trim s Hb. cbn zeta.
  rewrite (search_not_blank parseFloat fetch trim s Hb).
  cbn [fst snd]. unfold Search.shownConsignment, Search.errorAlert,
    Search.buttonDisabled, Search.mapProps, TrackingPage.mapCardRendered.
  cbn [TrackingPage.shipmentData TrackingPage.error TrackingPage.isLoading
         TrackingPage.mapLoaded TrackingPage.withCoords option_map
         TrackingPage.fromCoords TrackingPage.toCoords TrackingPage.currentCoords
         TrackingPage.consignmentNumber TrackingPage.mockShipmentData String.eqb].
  repeat split; trivial.
  - destruct (geocoded parseFloat fetch "New York, NY"),
      (geocoded parseFloat fetch "San Francisco, CA"); discriminate.
  - destruct (geocoded parseFloat fetch "New York, NY"),
      (geocoded parseFloat fetch "San Francisco, CA"); congruence.
Qed.

Lemma search_shows_the_mock_shipment_witness :
  let r := Search.search Inputs.parseFloat Inputs.gazetteer MoreInputs.trim
             (MoreInputs.typed "ABC 42") in
  fst r = Normal tt /\
  Search.shownConsignment (snd r) = Some "SHP12345678"%string /\
  Search.errorAlert (snd r) = None /\
  Search.buttonDisabled (snd r) = false /\
  TrackingPage.mapLoaded (snd r) = true /\
  Search.mapProps (snd r)
  = match geocoded Inputs.parseFloat Inputs.gazetteer "New York, NY",
          geocoded Inputs.parseFloat Inputs.gazetteer "San Francisco, CA" with
    | Some f, Some t => Some (f, t, geocoded Inputs.parseFloat Inputs.gazetteer "Denver, CO")
    | _, _ => None
    end /\
  (TrackingPage.mapCardRendered (snd r) = true <-> Search.mapProps (snd r) <> None).
Proof.
  apply (@search_shows_the_mock_shipment R Inputs.parseFloat Inputs.gazetteer
           MoreInputs.trim (MoreInputs.typed "ABC 42")).
  discriminate.
Defined.

(** * Doubles *)

(** ** Exact operations on doubles *)

Section ExactOperations.

Lemma iter_xO_mul (m : positive) : Pos.mul m 4503599627370496 = Pos.iter xO m 52.
Proof. rewrite Pos.mul_comm. reflexivity. Qed.

Lemma digits_iter_xO (m : positive) :
  Zpos (digits2_pos (Pos.iter xO m 52)) = (Zpos (digits2_pos m) + 52)%Z.
Proof.
  change (digits2_pos (Pos.iter xO m 52)) with (Pos.iter Pos.succ (digits2_pos m) 52).
  generalize (digits2_pos m). intros d.
  cbn [Pos.iter]. repeat rewrite Pos2Z.inj_succ. lia.
Qed.

Lemma shr_52 (m : positive) :
  SpecFloat.iter_pos shr_1 52 (Build_shr_record (Zpos (Pos.iter xO m 52)) false false)
  = Build_shr_record (Zpos m) false false.
Proof. reflexivity. Qed.

(** The product of a canonical mantissa with that of [1] rounds back to it. *)
Lemma mul_one_finite (x : float) s m e :
  Prim2SF x = S754_finite s m e -> PrimFloat.mul x 1%float = x.
Proof.
  intros Hx. apply Prim2SF_inj. rewrite mul_spec, Hx.
  pose proof (Prim2SF_valid x) as Hv. rewrite Hx in Hv.
  cbn [valid_binary] in Hv. unfold bounded, canonical_mantissa in Hv.
  apply andb_prop in Hv. destruct Hv as [Hc Hb].
  apply Z.eqb_eq in Hc.
  change (Prim2SF 1%float) with (S754_finite false 4503599627370496 (-52)).
  unfold SF64mul, SFmul. rewrite iter_xO_mul.
  unfold binary_round_aux, shr_fexp at 1.
  cbn [Zdigits2]. rewrite digits_iter_xO.
  replace (Z.pos (digits2_pos m) + 52 + (e + -52))%Z
    with (Z.pos (digits2_pos m) + e)%Z by lia.
  rewrite Hc.
  replace (e - (e + -52))%Z with 52%Z by lia.
  cbn [shr shr_record_of_loc]. rewrite shr_52.
  cbn [shr_m loc_of_shr_record round_nearest_even].
  unfold shr_fexp. cbn [Zdigits2].
  replace (e + -52 + 52)%Z with e by lia.
  rewrite Hc, Z.sub_diag. cbn [shr shr_record_of_loc shr_m].
  rewrite Hb. now rewrite xorb_false_r.
Qed.

(** [x * 1 = x] for every finite double. *)
Lemma mul_one (x : float) : isFinite x = true -> PrimFloat.mul x 1%float = x.
Proof.
  unfold isFinite. intros H.
  destruct (Prim2SF x) as [s | s | | s m e] eqn:Hx; try discriminate.
  - apply Prim2SF_inj. rewrite mul_spec, Hx.
    change (Prim2SF 1%float) with (S754_finite false 4503599627370496 (-52)).
    cbn. now rewrite xorb_false_r.
  - now apply mul_one_finite with s m e.
Qed.

(** A finite double times zero is a zero. *)
Lemma mul_zero_r (x : float) :
  isFinite x = true -> isZero (PrimFloat.mul x 0%float) = true.
Proof.
  unfold isFinite, isZero. intros H. rewrite mul_spec.
  change (Prim2SF 0%float) with (S754_zero false).
  destruct (Prim2SF x) as [s | s | | s m e]; try discriminate; reflexivity.
Qed.

Lemma mul_zero_l (x : float) :
  isFinite x = true -> isZero (PrimFloat.mul 0%float x) = true.
Proof.
  unfold isFinite, isZero. intros H. rewrite mul_spec.
  change (Prim2SF 0%float) with (S754_zero false).
  destruct (Prim2SF x) as [s | s | | s m e]; try discriminate; reflexivity.
Qed.

(** Adding a zero to a finite double other than [-0] gives it back. *)
Lemma add_zero_r (x z : float) :
  regular x -> isZero z = true -> PrimFloat.add x z = x.
Proof.
  unfold regular, isFinite, isNegativeZero, isZero. intros [Hf Hn] Hz.
  apply Prim2SF_inj. rewrite add_spec.
  destruct (Prim2SF x) as [s | s | | s m e]; try discriminate;
    destruct (Prim2SF z) as [sz | sz | | sz mz ez]; try discriminate.
  - destruct s; [discriminate |]. now destruct sz.
  - reflexivity.
Qed.

Lemma add_zero_l (x z : float) :
  regular x -> isZero z = true -> PrimFloat.add z x = x.
Proof.
  unfold regular, isFinite, isNegativeZero, isZero. intros [Hf Hn] Hz.
  apply Prim2SF_inj. rewrite add_spec.
  destruct (Prim2SF x) as [s | s | | s m e]; try discriminate;
    destruct (Prim2SF z) as [sz | sz | | sz mz ez]; try discriminate.
  - destruct s; [discriminate |]. now destruct sz.
  - reflexivity.
Qed.

(** [x - x = +0] for every finite double. *)
Lemma sub_diag (x : float) : isFinite x = true -> PrimFloat.sub x x = 0%float.
Proof.
  unfold isFinite. intros H. apply Prim2SF_inj. rewrite sub_spec.
  change (Prim2SF 0%float) with (S754_zero false).
  destruct (Prim2SF x) as [s | s | | s m e]; try discriminate.
  - now destruct s.
  - unfold SF64sub, SFsub. rewrite Z.sub_diag. reflexivity.
Qed.

(** A square root is NaN or is not negative. *)
Lemma sqrt_notNegative (x : float) : notNegative (Prim2SF (PrimFloat.sqrt x)).
Proof.
  unfold notNegative. rewrite sqrt_spec. unfold SF64sqrt, SFsqrt.
  destruct (Prim2SF x) as [s | [|] | | [|] m e]; cbn; trivial.
  destruct (SFsqrt_core_binary prec emax (Z.pos m) e) as [[mz ez] lz].
  unfold binary_round_aux.
  destruct (shr_fexp prec emax mz ez lz) as [mrs' e'].
  destruct (shr_fexp prec emax _ e' loc_Exact) as [mrs'' e''].
  destruct (shr_m mrs''); trivial.
  now destruct (e'' <=? emax - prec)%Z.
Qed.

End ExactOperations.

(** ** The order of [<] on doubles that are not negative *)

Section Order.

Lemma SFltb_below (x y : spec_float) :
  notNegative x -> notNegative y -> (SFltb x y = true <-> below x y).
Proof.
  intros Hx Hy.
  destruct x as [sx | [|] | | [|] mx ex]; try contradiction;
    destruct y as [sy | [|] | | [|] my ey]; try contradiction;
    cbn; try (split; [discriminate | tauto]); try tauto.
  unfold SFltb, SFcompare.
  change (Pos.compare_cont Eq mx my) with (Pos.compare mx my).
  destruct (Z.compare_spec ex ey) as [He | He | He].
  - destruct (Pos.compare_spec mx my) as [Hm | Hm | Hm]; split; intros H;
      try discriminate; try reflexivity; try lia.
  - split; intros _; [left; exact He | reflexivity].
  - split; intros H; [discriminate | lia].
Qed.

Lemma below_irrefl (x : spec_float) : ~ below x x.
Proof. destruct x as [s | [|] | | [|] m e]; cbn; lia. Qed.

Lemma below_trans (x y z : spec_float) : below x y -> below y z -> below x z.
Proof.
  destruct x as [sx | [|] | | [|] mx ex]; destruct y as [sy | [|] | | [|] my ey];
    destruct z as [sz | [|] | | [|] mz ez]; cbn; try tauto; lia.
Qed.

(** What is below [y] is below everything, NaN apart, that is not below [y]. *)
Lemma below_other (x y z : spec_float) :
  notNegative z -> below x y -> ~ below z y -> z = S754_nan \/ below x z.
Proof.
  destruct x as [sx | [|] | | [|] mx ex]; destruct y as [sy | [|] | | [|] my ey];
    destruct z as [sz | [|] | | [|] mz ez]; cbn; try tauto; try lia;
    intros _ H1 H2; right; lia.
Qed.

Lemma below_not_nan (x y : spec_float) : below x y -> x <> S754_nan.
Proof. destruct x; cbn; try discriminate; tauto. Qed.

End Order.

(** ** The nearest-point scan on doubles *)

Lemma completedRoute_nearest {number : Type} {JN : JsNumber number}
      (cur : Coords number) (route : list (LatLng number)) (st : State number) :
  route <> [] ->
  completedRoute (snd (calculateCompletedRoute (Some cur) route st))
  = firstn (closestPointIndex cur route + 1) route.
Proof.
  intros Hne. unfold calculateCompletedRoute.
  destruct route as [| p rest]; [contradiction |].
  cbn [length Nat.eqb setCompletedRoute modify snd completedRoute].
  rewrite slice0_firstn by lia. f_equal. lia.
Qed.

Section ScanOnDoubles.
Variable sin : float -> float.
Local Abbreviation distance := (@distance float (Binary64.number sin)).
Local Abbreviation visit := (@visit float (Binary64.number sin)).
Local Abbreviation closestPointIndex := (@closestPointIndex float (Binary64.number sin)).
Local Abbreviation Number_MAX_VALUE := (@Number_MAX_VALUE float (Binary64.number sin)).

Lemma distance_notNegative (cur : Coords float) (q : LatLng float) :
  notNegative (Prim2SF (distance cur q)).
Proof. unfold distance. cbn zeta. apply sqrt_notNegative. Qed.

Lemma ltb_below (x y : float) :
  notNegative (Prim2SF x) -> notNegative (Prim2SF y) ->
  (PrimFloat.ltb x y = true <-> below (Prim2SF x) (Prim2SF y)).
Proof. intros Hx Hy. rewrite ltb_spec. now apply SFltb_below. Qed.

Lemma visit_doubles (cur : Coords float) (closest : nat * float)
      (p : LatLng float) (index : nat) :
  visit cur closest p index
  = if PrimFloat.ltb (distance cur p) (snd closest) then (index, distance cur p)
    else closest.
Proof. reflexivity. Qed.

(** Either nothing is below the initial [closestDistance], or the scan ends
    at the first index, in scan order, below whose computed distance no
    computed distance lies. *)
Lemma forEach_visit_doubles (cur : Coords float) (l : list (LatLng float)) :
  forall (index : nat) (acc : nat * float),
    notNegative (Prim2SF (snd acc)) ->
    (forEach_from (visit cur) l index acc = acc /\
     forall q, In q l -> ~ below (Prim2SF (distance cur q)) (Prim2SF (snd acc)))
    \/ (exists j p,
           nth_error l j = Some p /\
           forEach_from (visit cur) l index acc = ((index + j)%nat, distance cur p) /\
           below (Prim2SF (distance cur p)) (Prim2SF (snd acc)) /\
           (forall q, In q l ->
                      ~ below (Prim2SF (distance cur q)) (Prim2SF (distance cur p))) /\
           (forall i q, (i < j)%nat -> nth_error l i = Some q ->
                        Prim2SF (distance cur q) = S754_nan
                        \/ below (Prim2SF (distance cur p)) (Prim2SF (distance cur q)))).
Proof.
  induction l as [| x rest IH]; intros index acc Hacc.
  - left. split; [reflexivity | intros q []].
  - cbn [forEach_from]. rewrite visit_doubles.
    pose proof (distance_notNegative cur x) as Hx.
    destruct (PrimFloat.ltb (distance cur x) (snd acc)) eqn:Hlt.
    + apply (ltb_below _ _ Hx Hacc) in Hlt.
      destruct (IH (S index) (index, distance cur x) Hx)
        as [[Hr Hall] | (j & p & Hn & Hr & Hd & Hmin & Hfirst)]; cbn [snd] in *.
      * right. exists 0%nat, x. rewrite Hr, Nat.add_0_r.
        repeat split; trivial.
        -- intros q [<- | Hq]; [apply below_irrefl | now apply Hall].
        -- intros i q Hi. lia.
      * right. exists (S j), p. rewrite Hr.
        replace (index + S j)%nat with (S index + j)%nat by lia.
        repeat split; trivial.
        -- now apply below_trans with (Prim2SF (distance cur x)).
        -- intros q [<- | Hq]; [| now apply Hmin].
           intros Hb. apply (below_irrefl (Prim2SF (distance cur p))).
           now apply below_trans with (Prim2SF (distance cur x)).
        -- intros [| i] q Hi Hq; cbn in Hq.
           ++ injection Hq as <-. now right.
           ++ apply (Hfirst i); [lia | exact Hq].
    + assert (Hnb : ~ below (Prim2SF (distance cur x)) (Prim2SF (snd acc))).
      { intros Hb. apply (ltb_below _ _ Hx Hacc) in Hb. congruence. }
      destruct (IH (S index) acc Hacc)
        as [[Hr Hall] | (j & p & Hn & Hr & Hd & Hmin & Hfirst)].
      * left. split; [exact Hr |].
        intros q [<- | Hq]; [exact Hnb | now apply Hall].
      * right. exists (S j), p. rewrite Hr.
        replace (index + S j)%nat with (S index + j)%nat by lia.
        repeat split; trivial.
        -- intros q [<- | Hq]; [| now apply Hmin].
           intros Hb. apply Hnb.
           now apply below_trans with (Prim2SF (distance cur p)).
        -- intros [| i] q Hi Hq; cbn in Hq.
           ++ injection Hq as <-.
              now apply below_other with (Prim2SF (snd acc)).
           ++ apply (Hfirst i); [lia | exact Hq].
Qed.

(** The scan from [Number.MAX_VALUE], when some computed distance is below
    it. *)
Lemma closestPointIndex_doubles (cur : Coords float) (route : list (LatLng float)) :
  (exists p, In p route /\
             below (Prim2SF (distance cur p)) (Prim2SF Number_MAX_VALUE)) ->
  exists p,
    nth_error route (closestPointIndex cur route) = Some p /\
    below (Prim2SF (distance cur p)) (Prim2SF Number_MAX_VALUE) /\
    (forall q, In q route ->
               ~ below (Prim2SF (distance cur q)) (Prim2SF (distance cur p))) /\
    (forall i q, (i < closestPointIndex cur route)%nat -> nth_error route i = Some q ->
                 Prim2SF (distance cur q) = S754_nan
                 \/ below (Prim2SF (distance cur p)) (Prim2SF (distance cur q))).
Proof.
  intros (p0 & Hin & Hb0). unfold closestPointIndex, forEach.
  destruct (forEach_visit_doubles cur route 0 (0%nat, Number_MAX_VALUE))
    as [[_ Hall] | (j & p & Hn & Hr & Hd & Hmin & Hfirst)]; cbn [snd] in *.
  - exact I.
  - exfalso. now apply (Hall p0).
  - rewrite Hr. cbn [fst Nat.add]. exists p. repeat split; trivial.
Qed.

End ScanOnDoubles.

(** ** The current coordinate on the route (doubles) *)

Section OnTheRoute.
Variable sin : float -> float.
Local Abbreviation distance := (@distance float (Binary64.number sin)).
Local Abbreviation visit := (@visit float (Binary64.number sin)).
Local Abbreviation closestPointIndex := (@closestPointIndex float (Binary64.number sin)).
Local Abbreviation Number_MAX_VALUE := (@Number_MAX_VALUE float (Binary64.number sin)).

(** The computed distance of a finite coordinate to itself is [+0]. *)
Lemma distance_self_doubles (cur : Coords float) :
  isFinite (lat cur) = true -> isFinite (lon cur) = true ->
  distance cur (lat cur, lon cur) = 0%float.
Proof.
  intros Hlat Hlon.
  change (distance cur (lat cur, lon cur))
    with (PrimFloat.sqrt
            (PrimFloat.add
               (Binary64.pow (PrimFloat.sub (lat cur) (lat cur)) 2)
               (Binary64.pow (PrimFloat.sub (lon cur) (lon cur)) 2))).
  rewrite !sub_diag by assumption. reflexivity.
Qed.

Lemma closestPointIndex_zero_distance (cur : Coords float)
      (route : list (LatLng float)) (k : nat) :
  isFinite (lat cur) = true -> isFinite (lon cur) = true ->
  nth_error route k = Some (lat cur, lon cur) ->
  (closestPointIndex cur route <= k)%nat /\
  (exists p, nth_error route (closestPointIndex cur route) = Some p /\
             isZero (distance cur p) = true) /\
  (forall j q, (j < closestPointIndex cur route)%nat -> nth_error route j = Some q ->
               isZero (distance cur q) = false).
Proof.
  intros Hlat Hlon Hk.
  pose proof (distance_self_doubles cur Hlat Hlon) as Hself.
  assert (Hz : Prim2SF (distance cur (lat cur, lon cur)) = S754_zero false).
  { rewrite Hself. reflexivity. }
  destruct (closestPointIndex_doubles sin cur route)
    as (p & Hn & Hb & Hmin & Hfirst).
  { exists (lat cur, lon cur). split; [eapply nth_error_In; exact Hk |].
    rewrite Hz. exact I. }
  pose proof (distance_notNegative sin cur p) as Hp.
  assert (Hpz : isZero (distance cur p) = true).
  { specialize (Hmin _ (nth_error_In _ _ Hk)). rewrite Hz in Hmin.
    unfold isZero.
    destruct (Prim2SF (distance cur p)) as [s | [|] | | [|] m e];
      cbn in *; tauto. }
  split; [| split].
  - destruct (Nat.le_gt_cases (closestPointIndex cur route) k) as [Hle | Hgt];
      [exact Hle | exfalso].
    destruct (Hfirst k _ Hgt Hk) as [Hnan | Hbelow].
    + rewrite Hz in Hnan. discriminate.
    + rewrite Hz in Hbelow.
      destruct (Prim2SF (distance cur p)) as [s | [|] | | [|] m e]; cbn in *; tauto.
  - exists p. split; [exact Hn | exact Hpz].
  - intros j q Hj Hq. unfold isZero in *.
    destruct (Hfirst j q Hj Hq) as [Hnan | Hbelow].
    + now rewrite Hnan.
    + destruct (Prim2SF (distance cur p)) as [s | [|] | | [|] m e];
        try discriminate.
      destruct (Prim2SF (distance cur q)) as [sq | [|] | | [|] mq eq];
        cbn in *; tauto.
Qed.

End OnTheRoute.

(** C5, as stated, fails on doubles: on the route
    [(1e-170, 0); (0, 0); (1, 1)] with the current coordinate [(0, 0)], equal
    to route point 1 and to no other, the square of the difference to point 0
    underflows to zero, so the scan stays at index 0; the completed route is
    the first point alone, not the first two, whatever [Math.sin] computes. *)
Lemma underflow_ties_with_the_route_point :
  ~ exists sin : float -> float,
      completedRoute
        (snd (calculateCompletedRoute (JN := Binary64.number sin)
                (Some Inputs64.west) Inputs64.near_origin initialState))
      = firstn (1 + 1) Inputs64.near_origin.
Proof.
  intros [sin H]. vm_compute in H. discriminate H.
Qed.

(** C5, amended.  On doubles, for a route and a finite current coordinate
    equal to route point [k]: the scan stops at the first index [i], in scan
    order, whose computed distance to the current coordinate is zero, with
    [i <= k], and the completed route is exactly the first [i + 1] points;
    when no point before [k] is at computed distance zero, that is exactly
    the first [k + 1] points. *)
Theorem completed_prefix_at_route_point :
  forall (sin : float -> float) (route : list (LatLng float)) (cur : Coords float)
         (k : nat) (st : State float),
    isFinite (lat cur) = true -> isFinite (lon cur) = true ->
    nth_error route k = Some (lat cur, lon cur) ->
    let JN := Binary64.number sin in
    let i := closestPointIndex cur route in
    let st' := snd (calculateCompletedRoute (Some cur) route st) in
    (i <= k)%nat /\
    (exists p, nth_error route i = Some p /\ isZero (distance cur p) = true) /\
    (forall j q, (j < i)%nat -> nth_error route j = Some q ->
                 isZero (distance cur q) = false) /\
    completedRoute st' = firstn (i + 1) route /\
    ((forall j q, (j < k)%nat -> nth_error route j = Some q ->
                  isZero (distance cur q) = false) ->
     i = k /\ completedRoute st' = firstn (k + 1) route).
Proof.
  intros sin route cur k st Hlat Hlon Hk. cbn zeta.
  destruct (closestPointIndex_zero_distance sin cur route k Hlat Hlon Hk)
    as (Hle & (p & Hn & Hz) & Hfirst).
  assert (Hne : route <> []) by (intros ->; destruct k; discriminate Hk).
  pose proof (completedRoute_nearest (JN := Binary64.number sin) cur st Hne) as Hc.
  split; [exact Hle |]. split; [now exists p |]. split; [exact Hfirst |].
  split; [exact Hc |].
  intros Hnone.
  assert (Hik : closestPointIndex (JN := Binary64.number sin) cur route = k).
  { destruct (Nat.eq_dec (closestPointIndex (JN := Binary64.number sin) cur route) k)
      as [E | E]; [exact E | exfalso].
    assert (Hlt : (closestPointIndex (JN := Binary64.number sin) cur route < k)%nat)
      by lia.
    specialize (Hnone _ _ Hlt Hn). congruence. }
  split; [exact Hik |]. now rewrite Hc, Hik.
Qed.

Lemma completed_prefix_at_route_point_witness :
  let JN := Binary64.number Inputs64.libm_sin in
  let i := closestPointIndex Inputs.turning_point Inputs64.round_trip in
  let st' := snd (calculateCompletedRoute (Some Inputs.turning_point)
                    Inputs64.round_trip initialState) in
  (i <= 1)%nat /\
  (exists p, nth_error Inputs64.round_trip i = Some p /\
             isZero (distance Inputs.turning_point p) = true) /\
  (forall j q, (j < i)%nat -> nth_error Inputs64.round_trip j = Some q ->
               isZero (distance Inputs.turning_point q) = false) /\
  completedRoute st' = firstn (i + 1) Inputs64.round_trip /\
  ((forall j q, (j < 1)%nat -> nth_error Inputs64.round_trip j = Some q ->
                isZero (distance Inputs.turning_point q) = false) ->
   i = 1%nat /\ completedRoute st' = firstn (1 + 1) Inputs64.round_trip).
Proof.
  apply (@completed_prefix_at_route_point Inputs64.libm_sin Inputs64.round_trip
           Inputs.turning_point 1 initialState); reflexivity.
Defined.

(** On the same input no point before index 1 is at computed distance zero,
    and the completed route is the first two points. *)
Example completed_prefix_at_first_occurrence :
  let JN := Binary64.number Inputs64.libm_sin in
  (forall j q, (j < 1)%nat -> nth_error Inputs64.round_trip j = Some q ->
               isZero (distance Inputs.turning_point q) = false) /\
  completedRoute (snd (calculateCompletedRoute (Some Inputs.turning_point)
                         Inputs64.round_trip initialState))
  = [(40.5, -74.25); (40.75, -74)]%float.
Proof.
  cbn zeta. split; [| vm_compute; reflexivity].
  intros [| j] q Hj Hq; [| lia].
  injection Hq as <-. vm_compute. reflexivity.
Qed.



(** On that input the nearest point is 0.25 away, at indices 1 and 3, and
    the scan stops at index 1. *)
Example nearest_point_off_the_route :
  let JN := Binary64.number Inputs64.libm_sin in
  closestPointIndex Inputs64.off_route Inputs64.round_trip = 1%nat /\
  map (distance Inputs64.off_route) Inputs64.round_trip
  = [0x1.1e3779b97f4a8p-1; 0.25; 0.5; 0.25; 0x1.1e3779b97f4a8p+0]%float.
Proof. cbn zeta. split; vm_compute; reflexivity. Qed.

(** ** The ends of the synthesized route (doubles) *)

Section EndsOnDoubles.
Variable sin : float -> float.
Variables from to : Coords float.
Local Abbreviation fallbackPoint := (@fallbackPoint float (Binary64.number sin)).

Lemma fallbackPoint_doubles (i : nat) :
  fallbackPoint from to i
  = (let t := PrimFloat.div (Binary64.of_nat i) 20%float in
     let s := PrimFloat.mul (sin (PrimFloat.mul 0x1.921fb54442d18p+1%float t))
                0x1.47ae147ae147bp-6%float in
     (PrimFloat.add
        (PrimFloat.add (PrimFloat.mul (lat from) (PrimFloat.sub 1%float t))
                       (PrimFloat.mul (lat to) t))
        (PrimFloat.mul s (PrimFloat.sub (lon to) (lon from))),
      PrimFloat.add
        (PrimFloat.add (PrimFloat.mul (lon from) (PrimFloat.sub 1%float t))
                       (PrimFloat.mul (lon to) t))
        (PrimFloat.mul s (PrimFloat.sub (lat from) (lat to))))).
Proof. reflexivity. Qed.

Hypothesis sin_zero : sin 0%float = 0%float.
Hypothesis from_regular : regular (lat from) /\ regular (lon from).
Hypothesis to_regular : regular (lat to) /\ regular (lon to).
Hypothesis lon_span : isFinite (PrimFloat.sub (lon to) (lon from)) = true.
Hypothesis lat_span : isFinite (PrimFloat.sub (lat from) (lat to)) = true.

Lemma fallbackPoint_first_doubles :
  fallbackPoint from to 0 = (lat from, lon from).
Proof.
  rewrite fallbackPoint_doubles. cbn zeta.
  change (PrimFloat.div (Binary64.of_nat 0) 20%float) with 0%float.
  change (PrimFloat.sub 1%float 0%float) with 1%float.
  change (PrimFloat.mul 0x1.921fb54442d18p+1%float 0%float) with 0%float.
  rewrite sin_zero.
  change (PrimFloat.mul 0%float 0x1.47ae147ae147bp-6%float) with 0%float.
  destruct from_regular as [Hlat Hlon], to_regular as [Hlat' Hlon'].
  rewrite !mul_one by (apply Hlat || apply Hlon).
  rewrite (@add_zero_r (lat from)) by (try exact Hlat; apply mul_zero_r, Hlat').
  rewrite (@add_zero_r (lon from)) by (try exact Hlon; apply mul_zero_r, Hlon').
  rewrite (@add_zero_r (lat from)) by (try exact Hlat; apply mul_zero_l, lon_span).
  rewrite (@add_zero_r (lon from)) by (try exact Hlon; apply mul_zero_l, lat_span).
  reflexivity.
Qed.

Lemma fallbackPoint_last_doubles :
  fallbackPoint from to 20
  = (let offset := PrimFloat.mul (sin 0x1.921fb54442d18p+1%float)
                     0x1.47ae147ae147bp-6%float in
     (PrimFloat.add (lat to) (PrimFloat.mul offset (PrimFloat.sub (lon to) (lon from))),
      PrimFloat.add (lon to) (PrimFloat.mul offset (PrimFloat.sub (lat from) (lat to))))).
Proof.
  rewrite fallbackPoint_doubles. cbn zeta.
  change (PrimFloat.div (Binary64.of_nat 20) 20%float) with 1%float.
  change (PrimFloat.sub 1%float 1%float) with 0%float.
  change (PrimFloat.mul 0x1.921fb54442d18p+1%float 1%float)
    with 0x1.921fb54442d18p+1%float.
  destruct from_regular as [Hlat Hlon], to_regular as [Hlat' Hlon'].
  rewrite !mul_one by (apply Hlat' || apply Hlon').
  rewrite (@add_zero_l (lat to)) by (try exact Hlat'; apply mul_zero_r, Hlat).
  rewrite (@add_zero_l (lon to)) by (try exact Hlon'; apply mul_zero_r, Hlon).
  reflexivity.
Qed.

End EndsOnDoubles.


(** With the C library's sine, along the equator: the last point is
    2.4492935982947065e-17 degrees north of the destination ten degrees away,
    and 4.4087284769304716e-16 degrees north of the one on the antimeridian. *)
Example fallback_last_point_on_the_equator :
  nth_error (generateFallbackRoute (JN := Binary64.number Inputs64.libm_sin)
               Inputs64.west Inputs64.east) 20
  = Some (0x1.c3d09eb53c672p-56, 10)%float /\
  nth_error (generateFallbackRoute (JN := Binary64.number Inputs64.libm_sin)
               Inputs64.west Inputs64.antimeridian) 20
  = Some (0x1.fc4ab28be3f40p-52, 180)%float.
Proof. split; vm_compute; reflexivity. Qed.



(** From New York to San Francisco on doubles, with the C library's sine,
    the offset at the last point is absorbed by rounding: the route starts at
    New York and ends at San Francisco. *)
Example fallback_ends_new_york_san_francisco :
  let route := generateFallbackRoute (JN := Binary64.number Inputs64.libm_sin)
                 Inputs.new_york Inputs.san_francisco in
  nth_error route 0 = Some (lat Inputs.new_york, lon Inputs.new_york) /\
  nth_error route 20 = Some (lat Inputs.san_francisco, lon Inputs.san_francisco).
Proof. cbn zeta. split; vm_compute; reflexivity. Qed.

(** ** The map after a failure *)

(** X11.  After a routing failure, whatever the component held and in every
    model of [number], the map is still drawn: the loading indicator is gone,
    the error note reads "Could not load road route data", the dashed path is
    the 21 synthesized points, and the viewport is fitted to exactly those
    points. *)
Theorem failure_still_draws_the_map :
  forall (number : Type) (JN : JsNumber number) (from to : Coords number)
         (current : option (Coords number))
         (fetched : Completion (Response number)) (st : State number),
    Failure fetched ->
    let view := MapView.render from to current
                  (snd (fetchRoadRoute from to current fetched st)) in
    MapView.loadingIndicator view = false /\
    MapView.errorNote view = Some "Could not load road route data"%string /\
    MapView.fullPath view = Some (generateFallbackRoute from to) /\
    MapView.fitBounds view = generateFallbackRoute from to /\
    length (MapView.fitBounds view) = 21%nat.
Proof.
  intros number JN from to current fetched st F. cbn zeta.
  rewrite (fetchRoadRoute_failure from to current st F).
  unfold MapView.render, MapView.fitBoundsPoints.
  cbn [snd afterFallback routeData isLoading error
         MapView.loadingIndicator MapView.errorNote MapView.fullPath MapView.fitBounds].
  rewrite generateFallbackRoute_length, map_pair_id.
  cbn [Nat.ltb Nat.leb String.eqb negb andb].
  repeat split.
Qed.

Lemma failure_still_draws_the_map_witness :
  let view := MapView.render Inputs.west Inputs.east (Some Inputs.on_the_road)
                (snd (fetchRoadRoute Inputs.west Inputs.east (Some Inputs.on_the_road)
                        Inputs.no_route initialState)) in
  MapView.loadingIndicator view = false /\
  MapView.errorNote view = Some "Could not load road route data"%string /\
  MapView.fullPath view = Some (generateFallbackRoute Inputs.west Inputs.east) /\
  MapView.fitBounds view = generateFallbackRoute Inputs.west Inputs.east /\
  length (MapView.fitBounds view) = 21%nat.
Proof.
  apply (@failure_still_draws_the_map R Real.number Inputs.west Inputs.east
           (Some Inputs.on_the_road) Inputs.no_route initialState).
  apply StatusNotOk. discriminate.
Defined.
